(** * ferrisup data-science templates: sample data generator and diagram renderer

    A shallow embedding of

    - [templates/data-science/polars-cli/data/generate_sample_parquet.py]
      (module [Generator]) and
    - [templates/data-science/visualize_templates.py]
      (module [Visualizer]),

    followed by the properties of the two scripts. *)

From Stdlib Require Import ZArith List String Ascii Bool Lia Sorted.
From Stdlib Require Import Floats.SpecFloat.
From stdpp Require Import gmap strings list pretty.

Local Open Scope Z_scope.


(** ** IEEE-754 binary64, the element type of numpy's [float64] arrays *)

Module Float64.

Definition prec : Z := 53.
Definition emax : Z := 1024.

Definition valid (x : spec_float) : bool := valid_binary prec emax x.
Definition mul (x y : spec_float) : spec_float := SFmul prec emax x y.
Definition ltb (x y : spec_float) : bool := SFltb x y.
Definition leb (x y : spec_float) : bool := SFleb x y.

(** Conversion of a Python [int] operand to [float64]
    (round to nearest, ties to even). *)
Definition of_Z (z : Z) : spec_float := binary_normalize prec emax z 0 false.

Definition zero : spec_float := S754_zero false.
Definition one : spec_float := of_Z 1.

(** [x] is a double with [0 <= x < 1]. *)
Definition in_unit_interval (x : spec_float) : bool :=
  valid x && leb zero x && ltb x one.

End Float64.

(** ** generate_sample_parquet.py *)

Module Generator.

(** *** The random source behind [np.random]

    [random_sample] is the next double of the global generator and
    [random_word] its next raw unsigned integer; both return the advanced
    generator state. *)
Class RandomSource (G : Type) := {
  random_sample : G -> spec_float * G;
  random_word : G -> N * G
}.

Section Numpy.
Context {G : Type} {RS : RandomSource G}.

(** [np.random.rand(n)]: [n] successive doubles. *)
Fixpoint rand (n : nat) (g : G) : list spec_float * G :=
  match n with
  | O => ([], g)
  | S n' =>
      let '(x, g1) := random_sample g in
      let '(xs, g2) := rand n' g1 in
      (x :: xs, g2)
  end.

(** [randint(0, bound)]: an index below [bound]. *)
Definition randint (bound : N) (g : G) : N * G :=
  let '(w, g1) := random_word g in ((w mod bound)%N, g1).

(** [np.random.choice(a, size)]: [size] entries [a[idx]] at random
    indices; an empty [a] raises (here [None]). *)
Fixpoint choice {A : Type} (a : list A) (size : nat) (g : G)
  : option (list A * G) :=
  match size with
  | O => Some ([], g)
  | S size' =>
      let '(idx, g1) := randint (N.of_nat (length a)) g in
      match a !! N.to_nat idx with
      | None => None
      | Some x =>
          match choice a size' g1 with
          | None => None
          | Some (xs, g2) => Some (x :: xs, g2)
          end
      end
  end.

(** [ndarray * 1000]: the integer operand is converted to [float64] and
    the product is taken element by element. *)
Definition array_mul_int (xs : list spec_float) (k : Z) : list spec_float :=
  map (fun x => Float64.mul x (Float64.of_Z k)) xs.
End Numpy.

(** *** Python builtins *)

(** [range(start, stop)] *)
Definition range (start stop : Z) : list Z := seqZ start (stop - start).

(** [str(i)] for an [int], as interpolated by an f-string. *)
Definition str (i : Z) : string := pretty i.

(** *** pandas timestamps: signed 64-bit nanoseconds since 1970-01-01 *)

Definition day_ns : Z := 86400 * 1000000000.
Definition int64_min : Z := - 2 ^ 63.
Definition int64_max : Z := 2 ^ 63 - 1.

Definition digit (c : ascii) : option Z :=
  let n := Z.of_nat (nat_of_ascii c) in
  if (48 <=? n) && (n <=? 57) then Some (n - 48) else None.

Definition number (cs : list ascii) : option Z :=
  fold_left (fun acc c =>
               match acc, digit c with
               | Some a, Some d => Some (10 * a + d)
               | _, _ => None
               end) cs (Some 0).

(** Days since the epoch of a proleptic Gregorian date. *)
Definition days_from_civil (y m d : Z) : Z :=
  let y' := if m <=? 2 then y - 1 else y in
  let era := y' / 400 in
  let yoe := y' - era * 400 in
  let doy := (153 * (if 2 <? m then m - 3 else m + 9) + 2) / 5 + d - 1 in
  let doe := yoe * 365 + yoe / 4 - yoe / 100 + doy in
  era * 146097 + doe - 719468.

(** The calendar date (year, month, day) of a day number. *)
Definition civil_from_days (z : Z) : Z * Z * Z :=
  let z' := z + 719468 in
  let era := z' / 146097 in
  let doe := z' - era * 146097 in
  let yoe := (doe - doe / 1460 + doe / 36524 - doe / 146096) / 365 in
  let y := yoe + era * 400 in
  let doy := doe - (365 * yoe + yoe / 4 - yoe / 100) in
  let mp := (5 * doy + 2) / 153 in
  let d := doy - (153 * mp + 2) / 5 + 1 in
  let m := if mp <? 10 then mp + 3 else mp - 9 in
  (if m <=? 2 then y + 1 else y, m, d).

(** [pd.Timestamp('YYYY-MM-DD')]: midnight of that day; [None] stands for
    the parse error and for [OutOfBoundsDatetime]. *)
Definition Timestamp (s : string) : option Z :=
  match list_ascii_of_string s with
  | [y1; y2; y3; y4; dash1; m1; m2; dash2; d1; d2] =>
      if Ascii.eqb dash1 "-" && Ascii.eqb dash2 "-" then
        match number [y1; y2; y3; y4], number [m1; m2], number [d1; d2] with
        | Some y, Some m, Some d =>
            let ns := days_from_civil y m d * day_ns in
            if (1 <=? m) && (m <=? 12) && (1 <=? d) && (d <=? 31)
               && (int64_min <? ns) && (ns <=? int64_max)
            then Some ns else None
        | _, _, _ => None
        end
      else None
  | _ => None
  end.

(** [pd.date_range(start=..., periods=n)] with the default daily
    frequency: [n] timestamps, one day apart. *)
Definition date_range (start : string) (periods : nat) : option (list Z) :=
  match Timestamp start with
  | None => None
  | Some t0 =>
      let ts := map (fun i => t0 + Z.of_nat i * day_ns) (seq 0 periods) in
      if forallb (fun t => t <=? int64_max) ts then Some ts else None
  end.

(** The calendar date a timestamp falls on. *)
Definition date_of (t : Z) : Z * Z * Z := civil_from_days (t / day_ns).

(** *** The table *)

Inductive column :=
| IntCol (xs : list Z)
| StrCol (xs : list string)
| FloatCol (xs : list spec_float)
| DateCol (xs : list Z)
| BoolCol (xs : list bool).

Definition column_length (c : column) : nat :=
  match c with
  | IntCol xs => length xs
  | StrCol xs => length xs
  | FloatCol xs => length xs
  | DateCol xs => length xs
  | BoolCol xs => length xs
  end.

Record DataFrame := mkDataFrame {
  columns : list (string * column);
  nrows : nat
}.

(** [pd.DataFrame(data)] for a dict of array-likes, in insertion order:
    all of them must have one length (else [ValueError], here [None]). *)
Definition DataFrame_of_dict (data : list (string * column)) : option DataFrame :=
  match data with
  | [] => Some (mkDataFrame [] 0)
  | (_, c) :: _ =>
      let n := column_length c in
      if forallb (fun kc => Nat.eqb (column_length (snd kc)) n) data
      then Some (mkDataFrame data n) else None
  end.

Definition column_names (df : DataFrame) : list string := map fst (columns df).
Definition ncols (df : DataFrame) : nat := length (columns df).

(** [df[name]] *)
Fixpoint assoc (name : string) (kcs : list (string * column)) : option column :=
  match kcs with
  | [] => None
  | (k, c) :: rest => if String.eqb k name then Some c else assoc name rest
  end.
Definition get_column (name : string) (df : DataFrame) : option column :=
  assoc name (columns df).

(** *** The script *)

Section Script.
Context {G : Type} {RS : RandomSource G}.

(** The dict literal [data]; its entries are evaluated top to bottom,
    so the three random columns draw from the generator in the order
    [value], [category], [is_active]. *)
Definition data (g : G) : option (list (string * column) * G) :=
  let id := range 1 101 in
  let name := map (fun i => "Item " +:+ str i) (range 1 101) in
  let '(r, g1) := rand 100 g in
  let value := array_mul_int r 1000 in
  match choice ["A"; "B"; "C"; "D"] 100 g1 with
  | None => None
  | Some (category, g2) =>
      match date_range "2023-01-01" 100 with
      | None => None
      | Some date =>
          match choice [true; false] 100 g2 with
          | None => None
          | Some (is_active, g3) =>
              Some ([("id", IntCol id);
                     ("name", StrCol name);
                     ("value", FloatCol value);
                     ("category", StrCol category);
                     ("date", DateCol date);
                     ("is_active", BoolCol is_active)], g3)
          end
      end
  end.

(** [df = pd.DataFrame(data)] *)
Definition df (g : G) : option DataFrame :=
  match data g with
  | None => None
  | Some (d, _) => DataFrame_of_dict d
  end.

(** The files of the working directory (name to stored table) and the
    lines printed so far. *)
Record world := mkWorld {
  files : gmap string DataFrame;
  stdout : list string
}.

(** [df.to_parquet(path, index=False)]: the file holds the table. *)
Definition to_parquet (t : DataFrame) (path : string) (w : world) : world :=
  mkWorld (<[path := t]> (files w)) (stdout w).

Definition print (line : string) (w : world) : world :=
  mkWorld (files w) (stdout w ++ [line]).

(** The whole script; [None] is an unhandled exception. *)
Definition script (g : G) (w : world) : option world :=
  match df g with
  | None => None
  | Some t =>
      Some (print "Sample Parquet file created successfully!"
              (to_parquet t "example_data_parquet.parquet" w))
  end.
End Script.

End Generator.

(** ** visualize_templates.py *)

Module Visualizer.

(** *** Graph descriptions (graphviz's [Digraph]) *)

Definition attrs := list (string * string).

#[warnings="-register-all"]
Inductive stmt :=
| Attr (kw : option string) (a : attrs)
| Node (name label : string) (a : attrs)
| Edge (tail head : string) (label : option string) (a : attrs)
| Subgraph (name : string) (body : list stmt).

Record Digraph := mkDigraph {
  comment : option string;
  body : list stmt
}.

Definition Digraph_new (c : option string) : Digraph := mkDigraph c [].

Definition add (s : stmt) (g : Digraph) : Digraph :=
  mkDigraph (comment g) (body g ++ [s]).

(** [g.attr(kw, **a)], [g.node(name, label, **a)],
    [g.edge(tail, head, label=..., **a)] *)
Definition attr (kw : option string) (a : attrs) : Digraph -> Digraph :=
  add (Attr kw a).
Definition node (name label : string) (a : attrs) : Digraph -> Digraph :=
  add (Node name label a).
Definition edge (tail head : string) (label : option string) : Digraph -> Digraph :=
  add (Edge tail head label []).

(** [with g.subgraph(name=...) as c: ...]: the block fills a fresh graph
    [c], which is appended to [g] when the block is left. *)
Definition subgraph (name : string) (block : Digraph -> Digraph) (g : Digraph)
  : Digraph :=
  add (Subgraph name (body (block (Digraph_new None)))) g.

Definition nl : string := String (ascii_of_nat 10) EmptyString.

(** Statements run top to bottom: [g |> f] is [f] applied to the graph
    built so far. *)
Notation "g |> f" := (f g) (at level 45, left associativity, only parsing).

Definition image_classifier_graph : Digraph :=
  Digraph_new (Some "Image Classifier Architecture")
  |> attr (Some "graph") [("rankdir", "TB"); ("size", "8,8"); ("dpi", "300")]
  |> attr (Some "node") [("shape", "box"); ("style", "filled");
                         ("color", "lightblue"); ("fontname", "Arial")]
  |> attr (Some "edge") [("fontname", "Arial")]
  |> node "config" ("Configuration" +:+ nl +:+ "(config.rs)")
       [("shape", "note"); ("color", "lightgreen")]
  |> node "data" ("Data Processing" +:+ nl +:+ "(data.rs)") [("shape", "box")]
  |> node "model" ("CNN Model" +:+ nl +:+ "(model.rs)") [("shape", "box")]
  |> node "main" ("Main Application" +:+ nl +:+ "(main.rs)") [("shape", "box")]
  |> subgraph "cluster_dataflow" (fun c => c
       |> attr None [("label", "Data Flow"); ("style", "dashed")]
       |> node "images" "Input Images" [("shape", "folder"); ("color", "lightyellow")]
       |> node "tensors" "Image Tensors" [("shape", "box3d"); ("color", "lightgrey")]
       |> node "features" "Feature Maps" [("shape", "box3d"); ("color", "lightgrey")]
       |> node "predictions" "Class Predictions"
            [("shape", "box3d"); ("color", "lightgrey")]
       |> edge "images" "tensors" None
       |> edge "tensors" "features" None
       |> edge "features" "predictions" None)
  |> edge "config" "data" (Some "Parameters")
  |> edge "config" "model" (Some "Architecture")
  |> edge "config" "main" (Some "Training Settings")
  |> edge "data" "tensors" (Some "Process")
  |> edge "model" "features" (Some "Extract")
  |> edge "main" "predictions" (Some "Output").

Definition text_analyzer_graph : Digraph :=
  Digraph_new (Some "Text Analyzer Architecture")
  |> attr (Some "graph") [("rankdir", "TB"); ("size", "8,8"); ("dpi", "300")]
  |> attr (Some "node") [("shape", "box"); ("style", "filled");
                         ("color", "lightblue"); ("fontname", "Arial")]
  |> attr (Some "edge") [("fontname", "Arial")]
  |> node "config" ("Configuration" +:+ nl +:+ "(config.rs)")
       [("shape", "note"); ("color", "lightgreen")]
  |> node "data" ("Text Processing" +:+ nl +:+ "(data.rs)") [("shape", "box")]
  |> node "model" ("LSTM Model" +:+ nl +:+ "(model.rs)") [("shape", "box")]
  |> node "main" ("Main Application" +:+ nl +:+ "(main.rs)") [("shape", "box")]
  |> subgraph "cluster_dataflow" (fun c => c
       |> attr None [("label", "Data Flow"); ("style", "dashed")]
       |> node "text" "Input Text" [("shape", "folder"); ("color", "lightyellow")]
       |> node "tokens" "Token Sequences" [("shape", "box3d"); ("color", "lightgrey")]
       |> node "embeddings" "Word Embeddings"
            [("shape", "box3d"); ("color", "lightgrey")]
       |> node "sentiment" "Sentiment Prediction"
            [("shape", "box3d"); ("color", "lightgrey")]
       |> edge "text" "tokens" None
       |> edge "tokens" "embeddings" None
       |> edge "embeddings" "sentiment" None)
  |> edge "config" "data" (Some "Parameters")
  |> edge "config" "model" (Some "Architecture")
  |> edge "config" "main" (Some "Training Settings")
  |> edge "data" "tokens" (Some "Tokenize")
  |> edge "model" "embeddings" (Some "Embed")
  |> edge "main" "sentiment" (Some "Output").

Definition data_predictor_graph : Digraph :=
  Digraph_new (Some "Data Predictor Architecture")
  |> attr (Some "graph") [("rankdir", "TB"); ("size", "8,8"); ("dpi", "300")]
  |> attr (Some "node") [("shape", "box"); ("style", "filled");
                         ("color", "lightblue"); ("fontname", "Arial")]
  |> attr (Some "edge") [("fontname", "Arial")]
  |> node "config" ("Configuration" +:+ nl +:+ "(config.rs)")
       [("shape", "note"); ("color", "lightgreen")]
  |> node "data" ("Data Processing" +:+ nl +:+ "(data.rs)") [("shape", "box")]
  |> node "model" ("Neural Network" +:+ nl +:+ "(model.rs)") [("shape", "box")]
  |> node "main" ("Main Application" +:+ nl +:+ "(main.rs)") [("shape", "box")]
  |> subgraph "cluster_dataflow" (fun c => c
       |> attr None [("label", "Data Flow"); ("style", "dashed")]
       |> node "csv" "CSV Data" [("shape", "folder"); ("color", "lightyellow")]
       |> node "features" "Numerical Features"
            [("shape", "box3d"); ("color", "lightgrey")]
       |> node "normalized" "Normalized Features"
            [("shape", "box3d"); ("color", "lightgrey")]
       |> node "prediction" "Value Prediction"
            [("shape", "box3d"); ("color", "lightgrey")]
       |> edge "csv" "features" None
       |> edge "features" "normalized" None
       |> edge "normalized" "prediction" None)
  |> edge "config" "data" (Some "Parameters")
  |> edge "config" "model" (Some "Architecture")
  |> edge "config" "main" (Some "Training Settings")
  |> edge "data" "normalized" (Some "Normalize")
  |> edge "model" "prediction" (Some "Predict")
  |> edge "main" "prediction" (Some "Output").

Definition templates_overview_graph : Digraph :=
  Digraph_new (Some "Burn Templates Overview")
  |> attr (Some "graph") [("rankdir", "LR"); ("size", "10,8"); ("dpi", "300")]
  |> attr (Some "node") [("fontname", "Arial")]
  |> attr (Some "edge") [("fontname", "Arial")]
  |> node "burn" "Burn Framework"
       [("shape", "box"); ("style", "filled"); ("color", "orange")]
  |> node "image" "Image Classifier"
       [("shape", "box"); ("style", "filled"); ("color", "skyblue")]
  |> node "text" "Text Analyzer"
       [("shape", "box"); ("style", "filled"); ("color", "lightgreen")]
  |> node "data" "Data Predictor"
       [("shape", "box"); ("style", "filled"); ("color", "lightpink")]
  |> subgraph "cluster_image" (fun c => c
       |> attr None [("label", "Image Classifier Features"); ("style", "dashed")]
       |> node "cnn" "CNN Architecture" [("shape", "ellipse")]
       |> node "augment" "Image Augmentation" [("shape", "ellipse")]
       |> node "classify" "Multi-class Classification" [("shape", "ellipse")])
  |> subgraph "cluster_text" (fun c => c
       |> attr None [("label", "Text Analyzer Features"); ("style", "dashed")]
       |> node "lstm" "LSTM Architecture" [("shape", "ellipse")]
       |> node "embed" "Word Embeddings" [("shape", "ellipse")]
       |> node "sentiment" "Sentiment Analysis" [("shape", "ellipse")])
  |> subgraph "cluster_data" (fun c => c
       |> attr None [("label", "Data Predictor Features"); ("style", "dashed")]
       |> node "mlp" "MLP Architecture" [("shape", "ellipse")]
       |> node "normalize" "Data Normalization" [("shape", "ellipse")]
       |> node "regression" "Regression Analysis" [("shape", "ellipse")])
  |> edge "burn" "image" None
  |> edge "burn" "text" None
  |> edge "burn" "data" None
  |> edge "image" "cnn" None
  |> edge "image" "augment" None
  |> edge "image" "classify" None
  |> edge "text" "lstm" None
  |> edge "text" "embed" None
  |> edge "text" "sentiment" None
  |> edge "data" "mlp" None
  |> edge "data" "normalize" None
  |> edge "data" "regression" None.

(** Reading a graph description back. *)
Definition subgraphs (b : list stmt) : list (string * list stmt) :=
  flat_map (fun s => match s with Subgraph n sb => [(n, sb)] | _ => [] end) b.
Definition nodes (b : list stmt) : list string :=
  flat_map (fun s => match s with Node n _ _ => [n] | _ => [] end) b.
Definition edges (b : list stmt) : list (string * string * option string) :=
  flat_map (fun s => match s with Edge t h l _ => [(t, h, l)] | _ => [] end) b.
Definition graph_attrs (b : list stmt) : attrs :=
  flat_map (fun s => match s with Attr None a => a | _ => [] end) b.
Fixpoint lookup_attr (k : string) (a : attrs) : option string :=
  match a with
  | [] => None
  | (k', v) :: rest => if String.eqb k' k then Some v else lookup_attr k rest
  end.
Definition group_label (b : list stmt) : option string :=
  lookup_attr "label" (graph_attrs b).

(** *** The process and its environment *)

(** Absolute paths, as lists of components. *)
Definition path := list string.

Inductive content :=
| DotSource (g : Digraph)
| Image (png : string)
| Blob (bytes : string).

Inductive inode :=
| Dir
| File (c : content).

Inductive exn :=
| FileExistsError (name : string)
| FileNotFoundError (name : string)
| NotADirectoryError (name : string)
| IsADirectoryError (name : string)
| CalledProcessError (name : string)
| ExecutableNotFound.

(** What the process did, in order: the calls that leave it and the lines
    it prints. *)
Inductive event :=
| Makedirs (name : string)
| Chdir (name : string)
| Render (filename : string)
| Print (line : string).

(** [backend] is the installed Graphviz engine: the PNG it draws for a
    graph description, or [None] when it is missing or fails. *)
Record world := mkWorld {
  fs : gmap path inode;
  cwd : path;
  backend : Digraph -> option string;
  log : list event
}.

Definition set_fs (f : gmap path inode) (w : world) : world :=
  mkWorld f (cwd w) (backend w) (log w).
Definition set_cwd (d : path) (w : world) : world :=
  mkWorld (fs w) d (backend w) (log w).
Definition record (e : event) (w : world) : world :=
  mkWorld (fs w) (cwd w) (backend w) (log w ++ [e]).

Inductive result (A : Type) :=
| Ok (a : A)
| Raise (e : exn).
Arguments Ok {A} a.
Arguments Raise {A} e.

Definition M (A : Type) : Type := world -> result A * world.

Definition ret {A} (a : A) : M A := fun w => (Ok a, w).
Definition raise {A} (e : exn) : M A := fun w => (Raise e, w).
Definition bind {A B} (m : M A) (k : A -> M B) : M B :=
  fun w =>
    match m w with
    | (Ok a, w1) => k a w1
    | (Raise e, w1) => (Raise e, w1)
    end.

Declare Scope script_scope.
Delimit Scope script_scope with script.
Notation "m ;; k" := (bind m (fun _ => k))
  (at level 100, k at level 200, right associativity) : script_scope.
Local Open Scope script_scope.

Definition exn_message (e : exn) : string :=
  match e with
  | FileExistsError n => "[Errno 17] File exists: '" +:+ n +:+ "'"
  | FileNotFoundError n => "[Errno 2] No such file or directory: '" +:+ n +:+ "'"
  | NotADirectoryError n => "[Errno 20] Not a directory: '" +:+ n +:+ "'"
  | IsADirectoryError n => "[Errno 21] Is a directory: '" +:+ n +:+ "'"
  | CalledProcessError n => "Command 'dot' failed on '" +:+ n +:+ "'"
  | ExecutableNotFound =>
      "failed to execute 'dot', make sure the Graphviz executables are on your systems' PATH"
  end.

(** [print(line)] *)
Definition print (line : string) : M unit :=
  fun w => (Ok tt, record (Print line) w).

(** [os.makedirs(name, exist_ok=...)] for a relative, one-component
    [name]. *)
Definition makedirs (name : string) (exist_ok : bool) : M unit :=
  fun w0 =>
    let w := record (Makedirs name) w0 in
    let p := cwd w ++ [name] in
    match fs w !! p with
    | Some Dir =>
        if exist_ok then (Ok tt, w) else (Raise (FileExistsError name), w)
    | Some (File _) => (Raise (FileExistsError name), w)
    | None =>
        match fs w !! cwd w with
        | Some Dir => (Ok tt, set_fs (<[p := Dir]> (fs w)) w)
        | Some (File _) => (Raise (NotADirectoryError name), w)
        | None => (Raise (FileNotFoundError name), w)
        end
    end.

(** [os.chdir(name)] *)
Definition chdir (name : string) : M unit :=
  fun w0 =>
    let w := record (Chdir name) w0 in
    let p := cwd w ++ [name] in
    match fs w !! p with
    | Some Dir => (Ok tt, set_cwd p w)
    | Some (File _) => (Raise (NotADirectoryError name), w)
    | None => (Raise (FileNotFoundError name), w)
    end.

(** [g.render(filename, format=..., cleanup=...)]: save the description
    as [filename], have the engine draw [filename.format] next to it,
    then remove the description when [cleanup] is set. *)
Definition render (filename format : string) (cleanup : bool) (g : Digraph)
  : M string :=
  fun w0 =>
    let w := record (Render filename) w0 in
    let src := cwd w ++ [filename] in
    let out := cwd w ++ [filename +:+ "." +:+ format] in
    match fs w !! cwd w, fs w !! src with
    | Some Dir, Some Dir => (Raise (IsADirectoryError filename), w)
    | Some Dir, _ =>
        let w1 := set_fs (<[src := File (DotSource g)]> (fs w)) w in
        match backend w1 g with
        | None => (Raise ExecutableNotFound, w1)
        | Some png =>
            match fs w1 !! out with
            | Some Dir => (Raise (CalledProcessError filename), w1)
            | _ =>
                let w2 := set_fs (<[out := File (Image png)]> (fs w1)) w1 in
                let w3 := if cleanup then set_fs (delete src (fs w2)) w2 else w2 in
                (Ok (filename +:+ "." +:+ format), w3)
            end
        end
    | _, _ => (Raise (FileNotFoundError filename), w)
    end.

(** *** The script *)

Definition create_image_classifier_diagram : M unit :=
  render "burn-image-classifier-diagram" "png" true image_classifier_graph ;;
  print "Created image classifier diagram: burn-image-classifier-diagram.png".

Definition create_text_analyzer_diagram : M unit :=
  render "burn-text-analyzer-diagram" "png" true text_analyzer_graph ;;
  print "Created text analyzer diagram: burn-text-analyzer-diagram.png".

Definition create_data_predictor_diagram : M unit :=
  render "burn-data-predictor-diagram" "png" true data_predictor_graph ;;
  print "Created data predictor diagram: burn-data-predictor-diagram.png".

Definition create_templates_overview : M unit :=
  render "burn-templates-overview" "png" true templates_overview_graph ;;
  print "Created templates overview: burn-templates-overview.png".

(** The body of [main]'s [try] block. *)
Definition main_try : M unit :=
  makedirs "diagrams" true ;;
  chdir "diagrams" ;;
  create_image_classifier_diagram ;;
  create_text_analyzer_diagram ;;
  create_data_predictor_diagram ;;
  create_templates_overview ;;
  print "All diagrams created successfully in the 'diagrams' directory".

(** [main()]: the exit status and the world it leaves. *)
Definition main (w : world) : Z * world :=
  match main_try w with
  | (Ok _, w1) => (0, w1)
  | (Raise e, w1) =>
      (1, record (Print ("Error creating diagrams: " +:+ exn_message e)) w1)
  end.

(** A new process started in directory [dir] on the file system [w] was
    left with. *)
Definition spawn (dir : path) (w : world) : world :=
  mkWorld (fs w) dir (backend w) [].

(** *** The four routines as a table

    Each routine is [render] of its graph under its file name followed by
    [print] of its confirmation; [create] is that common shape, used to
    state properties of all four at once. *)

Record diagram := mkDiagram {
  filename : string;
  graph : Digraph;
  message : string
}.

Definition output (d : diagram) : string := filename d +:+ ".png".

Definition create (d : diagram) : M unit :=
  render (filename d) "png" true (graph d) ;; print (message d).

Definition image_classifier : diagram :=
  mkDiagram "burn-image-classifier-diagram" image_classifier_graph
    "Created image classifier diagram: burn-image-classifier-diagram.png".
Definition text_analyzer : diagram :=
  mkDiagram "burn-text-analyzer-diagram" text_analyzer_graph
    "Created text analyzer diagram: burn-text-analyzer-diagram.png".
Definition data_predictor : diagram :=
  mkDiagram "burn-data-predictor-diagram" data_predictor_graph
    "Created data predictor diagram: burn-data-predictor-diagram.png".
Definition templates_overview : diagram :=
  mkDiagram "burn-templates-overview" templates_overview_graph
    "Created templates overview: burn-templates-overview.png".

(** The order in which [main] calls them. *)
Definition routines : list diagram :=
  [image_classifier; text_analyzer; data_predictor; templates_overview].

Fixpoint run_all (ds : list diagram) : M unit :=
  match ds with
  | [] => ret tt
  | d :: rest => create d ;; run_all rest
  end.

(** The first two statements of [main]. *)
Definition setup : M unit := makedirs "diagrams" true ;; chdir "diagrams".

Definition success_line : event :=
  Print "All diagrams created successfully in the 'diagrams' directory".
Definition error_line (e : exn) : event :=
  Print ("Error creating diagrams: " +:+ exn_message e).

(** The events of a routine that succeeds. *)
Definition events (d : diagram) : list event :=
  [Render (filename d); Print (message d)].

(** What a successful [create d] leaves in directory [dir]: the picture
    and no description. *)
Definition drawn (d : diagram) (dir : path) (png : string)
           (m : gmap path inode) : gmap path inode :=
  delete (dir ++ [filename d])
    (<[dir ++ [output d] := File (Image png)]>
       (<[dir ++ [filename d] := File (DotSource (graph d))]> m)).

(** The file names a list of diagrams writes to. *)
Definition names (ds : list diagram) : list string :=
  flat_map (fun d => [filename d; output d]) ds.

(** An edge whose two ends are both among [stages]. *)
Definition between (stages : list string) (e : string * string * option string)
  : bool :=
  bool_decide (fst (fst e) ∈ stages) && bool_decide (snd (fst e) ∈ stages).

(** A chain over stages [n1; n2; ...]: the unlabeled edges
    [n1 -> n2], [n2 -> n3], ... and no other. *)
Fixpoint chain (stages : list string) : list (string * string * option string) :=
  match stages with
  | a :: (b :: _) as rest => (a, b, None) :: chain rest
  | _ => []
  end.

(** *** Sample environments *)

(** An empty root directory and an engine that draws every graph. *)
Definition fresh : world :=
  mkWorld {[ [] := Dir ]} [] (fun _ => Some "PNG") [].

(** The same, with a regular file named [diagrams] in the way. *)
Definition occupied : world :=
  mkWorld {[ [] := Dir; ["diagrams"] := File (Blob EmptyString) ]} []
    (fun _ => Some "PNG") [].

(** The same as [fresh], with an engine that fails on the data-predictor
    graph (the third routine). *)
Definition failing_third : world :=
  mkWorld {[ [] := Dir ]} []
    (fun g => if decide (comment g = Some "Data Predictor Architecture")
              then None else Some "PNG") [].

End Visualizer.

(** ** The calendar, as the Gregorian rules state it *)

Module Calendar.

Definition is_leap (y : Z) : bool :=
  ((y mod 4 =? 0) && negb (y mod 100 =? 0)) || (y mod 400 =? 0).

Definition days_in_month (y m : Z) : Z :=
  if m =? 2 then (if is_leap y then 29 else 28)
  else if (m =? 4) || (m =? 6) || (m =? 9) || (m =? 11) then 30
  else 31.

(** The day after a date. *)
Definition next_day (date : Z * Z * Z) : Z * Z * Z :=
  let '(y, m, d) := date in
  if d <? days_in_month y m then (y, m, d + 1)
  else if m <? 12 then (y, m + 1, 1)
  else (y + 1, 1, 1).

(** [n] consecutive calendar days, the first being [first]. *)
Fixpoint consecutive_days (first : Z * Z * Z) (n : nat) : list (Z * Z * Z) :=
  match n with
  | O => []
  | S n' => first :: consecutive_days (next_day first) n'
  end.

End Calendar.

(** ** A concrete random source *)

Module Sources.
Import Generator.

(** A two-state source. Its doubles alternate between 0 and
    [(2^53 - 1) / 2^53], the largest double below 1, and its words
    between 0 and 1; the state is the seed. *)
#[export] Instance flip : RandomSource bool := {
  random_sample b :=
    (if b then S754_finite false 9007199254740991 (-53) else S754_zero false,
     negb b);
  random_word b := (if b then 1%N else 0%N, negb b)
}.

End Sources.

(** ** What a run draws, touches and calls *)

Module Draws.
Import Generator.

Section Tape.
Context {G : Type} {RS : RandomSource G}.

(** The next [n] raw words of a source. *)
Fixpoint words (n : nat) (g : G) : list N :=
  match n with
  | O => []
  | S n' => let '(w, g1) := random_word g in w :: words n' g1
  end.

(** The next [n] doubles of a source. *)
Fixpoint samples (n : nat) (g : G) : list spec_float :=
  match n with
  | O => []
  | S n' => let '(x, g1) := random_sample g in x :: samples n' g1
  end.

(** The state of a source after [n] doubles, and after [n] words. *)
Fixpoint after_samples (n : nat) (g : G) : G :=
  match n with
  | O => g
  | S n' => after_samples n' (snd (random_sample g))
  end.

Fixpoint after_words (n : nat) (g : G) : G :=
  match n with
  | O => g
  | S n' => after_words n' (snd (random_word g))
  end.
End Tape.

(** The category letter and the flag that a raw word selects. *)
Definition letter (w : N) : string :=
  match (w mod 4)%N with
  | 0%N => "A" | 1%N => "B" | 2%N => "C" | _ => "D"
  end.
Definition flag (w : N) : bool := (w mod 2 =? 0)%N.

(** Doubles that are neither NaN nor infinite, and the two zeros. *)
Definition is_finite (x : spec_float) : bool :=
  match x with
  | S754_zero _ | S754_finite _ _ _ => true
  | _ => false
  end.
Definition is_zero (x : spec_float) : bool :=
  match x with
  | S754_zero _ => true
  | _ => false
  end.

End Draws.

Module Health.
Import Visualizer.

Definition is_dir (m : gmap path inode) (p : path) : bool :=
  match m !! p with
  | Some Dir => true
  | _ => false
  end.




(** The paths [main] may write to when started in [dir]. *)
Definition touched (dir : path) : list path :=
  (dir ++ ["diagrams"])
    :: map (fun n => (dir ++ ["diagrams"]) ++ [n]) (names routines).

(** All nodes and all edges of a graph, those of its groupings included. *)
Definition all_nodes (g : Digraph) : list string :=
  nodes (body g) ++ flat_map (fun nb => nodes (snd nb)) (subgraphs (body g)).
Definition all_edges (g : Digraph) : list (string * string * option string) :=
  edges (body g) ++ flat_map (fun nb => edges (snd nb)) (subgraphs (body g)).

(** The tails of the edges into node [n]. *)
Definition parents (g : Digraph) (n : string) : list string :=
  map (fun e => fst (fst e))
      (List.filter (fun e => String.eqb (snd (fst e)) n) (all_edges g)).

(** The position of the first node named [n]. *)
Fixpoint index_of (n : string) (l : list string) : option nat :=
  match l with
  | [] => None
  | x :: rest => if String.eqb x n then Some 0%nat
                 else option_map S (index_of n rest)
  end.

(** Both ends of edge [e] are in [l], the tail before the head. *)
Definition declared_before (l : list string) (e : string * string * option string)
  : bool :=
  match index_of (fst (fst e)) l, index_of (snd (fst e)) l with
  | Some i, Some j => (i <? j)%nat
  | _, _ => false
  end.

(** The heads of the edges out of node [n]. *)
Definition children (g : Digraph) (n : string) : list string :=
  map (fun e => snd (fst e))
      (List.filter (fun e => String.eqb (fst (fst e)) n) (all_edges g)).

(** The statements of the grouping called [name]. *)
Fixpoint assoc_grouping (name : string) (l : list (string * list stmt))
  : option (list stmt) :=
  match l with
  | [] => None
  | (n, sb) :: rest => if String.eqb n name then Some sb else assoc_grouping name rest
  end.
Definition grouping (g : Digraph) (name : string) : option (list stmt) :=
  assoc_grouping name (subgraphs (body g)).

(** A directory that was used before: a note beside [diagrams], and in
    [diagrams] an old data-predictor picture and a file that has the name
    of the text-analyzer description. *)
Definition lived_in_fs : gmap path inode :=
  {[ [] := Dir;
     ["notes.txt"] := File (Blob "keep");
     ["diagrams"] := Dir;
     ["diagrams"; "burn-data-predictor-diagram.png"] := File (Image "OLD");
     ["diagrams"; "burn-text-analyzer-diagram"] := File (Blob "mine") ]}.
Definition lived_in : world :=
  mkWorld lived_in_fs [] (fun _ => Some "PNG") [].

End Health.

(** ** Rounding facts for binary64

    [SFmul] rounds the exact product to nearest-even through
    [binary_round_aux]: a right shift that keeps a round and a sticky bit,
    the rounding step, and a second shift for the carry. *)

Section FloatFacts.

Lemma iter_pos_nat {A : Type} (f : A -> A) (p : positive) (x : A) :
  SpecFloat.iter_pos f p x = Nat.iter (Pos.to_nat p) f x.
Proof.
  revert x; induction p as [p IH|p IH|]; intros x; cbn [SpecFloat.iter_pos].
  - rewrite !IH, Pos2Nat.inj_xI.
    replace (S (2 * Pos.to_nat p)) with (Pos.to_nat p + (Pos.to_nat p + 1))%nat by lia.
    rewrite !Nat.iter_add. reflexivity.
  - rewrite !IH, Pos2Nat.inj_xO.
    replace (2 * Pos.to_nat p)%nat with (Pos.to_nat p + Pos.to_nat p)%nat by lia.
    now rewrite Nat.iter_add.
  - reflexivity.
Qed.

Lemma shr_1_nonneg (m : Z) (r s : bool) :
  0 <= m ->
  shr_1 (Build_shr_record m r s) = Build_shr_record (m / 2) (Z.odd m) (r || s).
Proof.
  intros Hm. destruct m as [|p|p]; [reflexivity| |lia].
  destruct p as [p|p|]; simpl shr_1; cbv [Z.odd]; f_equal.
  - apply Z.div_unique with (r := 1); lia.
  - apply Z.div_unique with (r := 0); lia.
Qed.

Lemma shr_iter (P : Z) (k : nat) :
  0 <= P ->
  let mrs := Nat.iter k shr_1 (Build_shr_record P false false) in
  shr_m mrs = P / 2 ^ Z.of_nat k /\
  shr_r mrs = Z.odd (2 * P / 2 ^ Z.of_nat k).
Proof.
  intros HP. induction k as [|k IH]; intros mrs.
  - subst mrs. cbn [Nat.iter nat_rect shr_m shr_r Z.of_nat].
    change (2 ^ 0) with 1. rewrite !Z.div_1_r. split; [reflexivity|].
    rewrite Z.odd_mul. reflexivity.
  - subst mrs. cbn zeta in IH. rewrite Nat.iter_succ.
    destruct (Nat.iter k shr_1 _) as [m r s].
    cbn [shr_m shr_r] in IH. destruct IH as [Hm Hr].
    assert (0 <= m) by (subst m; apply Z.div_pos; lia).
    rewrite shr_1_nonneg by assumption. cbn [shr_m shr_r].
    rewrite Nat2Z.inj_succ, Z.pow_succ_r by lia.
    split.
    + subst m. rewrite Z.div_div by lia. f_equal; lia.
    + subst m. f_equal. rewrite Z.div_mul_cancel_l by lia. reflexivity.
Qed.

Lemma digits2_bounds (p : positive) :
  2 ^ (Zpos (digits2_pos p) - 1) <= Zpos p < 2 ^ Zpos (digits2_pos p).
Proof.
  induction p as [p IH|p IH|]; cbn [digits2_pos].
  - rewrite Pos2Z.inj_succ. change (Zpos p~1) with (2 * Zpos p + 1).
    replace (Z.succ (Zpos (digits2_pos p)) - 1) with (Z.succ (Zpos (digits2_pos p) - 1)) by lia.
    rewrite !Z.pow_succ_r by lia.
    set (a := 2 ^ _) in *. set (b := 2 ^ _) in *. clearbody a b. lia.
  - rewrite Pos2Z.inj_succ. change (Zpos p~0) with (2 * Zpos p).
    replace (Z.succ (Zpos (digits2_pos p)) - 1) with (Z.succ (Zpos (digits2_pos p) - 1)) by lia.
    rewrite !Z.pow_succ_r by lia.
    set (a := 2 ^ _) in *. set (b := 2 ^ _) in *. clearbody a b. lia.
  - simpl. lia.
Qed.

Lemma round_shift (P : Z) (n : positive) :
  0 <= P ->
  let mrs := SpecFloat.iter_pos shr_1 n (Build_shr_record P false false) in
  let m2 := round_nearest_even (shr_m mrs) (loc_of_shr_record mrs) in
  shr_m mrs = P / 2 ^ Zpos n /\
  P / 2 ^ Zpos n <= m2 <= P / 2 ^ Zpos n + 1 /\
  m2 * 2 ^ Zpos n <= P + 2 ^ (Zpos n - 1).
Proof.
  intros HP mrs m2. subst m2 mrs. rewrite iter_pos_nat.
  destruct (shr_iter P (Pos.to_nat n) HP) as [Hm Hr].
  rewrite positive_nat_Z in Hm, Hr.
  destruct (Nat.iter _ _ _) as [m r s]. cbn [shr_m shr_r] in *.
  set (h := 2 ^ (Zpos n - 1)) in *.
  assert (Hh : 0 < h) by (apply Z.pow_pos_nonneg; lia).
  assert (H2n : 2 ^ Zpos n = 2 * h).
  { unfold h. rewrite <- Z.pow_succ_r by lia. f_equal. lia. }
  rewrite H2n in *.
  rewrite Z.div_mul_cancel_l in Hr by lia.
  split; [exact Hm|]. rewrite <- Hm.
  pose proof (Z.mul_div_le P (2 * h) ltac:(lia)) as Hle. rewrite <- Hm in Hle.
  destruct r.
  - assert (Hq : P / h = 2 * m + 1).
    { pose proof (Z.div_mod (P / h) 2 ltac:(lia)) as Hdm.
      rewrite Z.div_div in Hdm by lia. rewrite (Z.mul_comm h 2), <- Hm in Hdm.
      rewrite Zmod_odd, <- Hr in Hdm. lia. }
    pose proof (Z.mul_div_le P h Hh) as Hle'. rewrite Hq in Hle'.
    destruct s; cbn [loc_of_shr_record round_nearest_even];
      [|destruct (Z.even m)]; lia.
  - destruct s; cbn [loc_of_shr_record round_nearest_even]; lia.
Qed.

Lemma fexp_eq (x : Z) : fexp 53 1024 x = Z.max (x - 53) (-1074).
Proof. reflexivity. Qed.

Lemma shr_nonpos (mrs : shr_record) (e n : Z) : n <= 0 -> shr mrs e n = (mrs, e).
Proof. destruct n; [reflexivity|lia|reflexivity]. Qed.

Lemma digits2_le (q : positive) (k : Z) :
  0 <= k -> Zpos q < 2 ^ k -> Zpos (digits2_pos q) <= k.
Proof.
  intros Hk Hq. destruct (digits2_bounds q) as [Hlo _].
  assert (2 ^ (Zpos (digits2_pos q) - 1) < 2 ^ k) as Hlt by lia.
  apply Z.pow_lt_mono_r_iff in Hlt; lia.
Qed.

Lemma round_aux_pos (P : positive) (E : Z) :
  let n := fexp 53 1024 (Zpos (digits2_pos P) + E) - E in
  0 < n -> E + n + 1 <= 971 ->
  exists m2,
    Zpos P / 2 ^ n <= m2 <= Zpos P / 2 ^ n + 1 /\
    m2 * 2 ^ n <= Zpos P + 2 ^ (n - 1) /\
    binary_round_aux 53 1024 false (Zpos P) E loc_Exact =
      if m2 =? 0 then S754_zero false
      else if m2 <? 2 ^ 53 then S754_finite false (Z.to_pos m2) (E + n)
      else S754_finite false (2 ^ 52)%positive (E + n + 1).
Proof.
  intros n Hn Hmax.
  unfold binary_round_aux, shr_fexp. cbn [Zdigits2]. fold n.
  pose proof (fexp_eq (Zpos (digits2_pos P) + E)) as Hfexp.
  destruct n as [|np|np] eqn:Hnp; try lia.
  cbn [shr].
  destruct (round_shift (Zpos P) np ltac:(lia)) as (Hm1 & Hm2 & Hbound).
  set (mrs := SpecFloat.iter_pos shr_1 np _) in *.
  set (m2 := round_nearest_even (shr_m mrs) (loc_of_shr_record mrs)) in *.
  clearbody m2. clearbody mrs.
  set (e' := E + Zpos np) in *.
  assert (He' : -1074 <= e') by (unfold e'; lia).
  assert (Hm1lt : Zpos P / 2 ^ Zpos np < 2 ^ 53).
  { apply Z.div_lt_upper_bound; [apply Z.pow_pos_nonneg; lia|].
    rewrite <- Z.pow_add_r by lia.
    destruct (digits2_bounds P) as [_ Hhi].
    eapply Z.lt_le_trans; [exact Hhi|].
    apply Z.pow_le_mono_r; lia. }
  assert (Hm1ge : 0 <= Zpos P / 2 ^ Zpos np) by (apply Z.div_pos; lia).
  exists m2. split; [exact Hm2|]. split; [exact Hbound|].
  destruct (Z.eqb_spec m2 0) as [->|Hnz].
  - cbn [Zdigits2 shr_record_of_loc]. rewrite shr_nonpos by (rewrite fexp_eq; lia).
    reflexivity.
  - destruct (Z.ltb_spec m2 (2 ^ 53)) as [Hlt|Hge].
    + destruct m2 as [|q|q]; try lia.
      cbn [Zdigits2 shr_record_of_loc].
      pose proof (digits2_le q 53 ltac:(lia) Hlt) as Hd.
      rewrite shr_nonpos by (rewrite fexp_eq; lia).
      cbn [shr_m Z.to_pos].
      destruct (Z.leb_spec e' (1024 - 53)) as [_|Hbad]; [reflexivity|lia].
    + assert (m2 = 2 ^ 53) as -> by lia.
      change (Zdigits2 (2 ^ 53)) with 54.
      rewrite fexp_eq.
      replace (Z.max (54 + e' - 53) (-1074) - e') with 1 by lia.
      cbn [shr shr_record_of_loc SpecFloat.iter_pos]. 
      change (shr_m (shr_1 _)) with (Zpos (2 ^ 52)).
      cbv iota beta.
      destruct (Z.leb_spec (e' + 1) (1024 - 53)) as [_|Hbad]; [reflexivity|lia].
Qed.

Lemma of_Z_1000 : Float64.of_Z 1000 = S754_finite false 8796093022208000 (-43).
Proof. vm_compute. reflexivity. Qed.

Lemma of_Z_1 : Float64.one = S754_finite false 4503599627370496 (-52).
Proof. vm_compute. reflexivity. Qed.

Lemma valid_finite (s : bool) (m : positive) (e : Z) :
  Float64.valid (S754_finite s m e) = true ->
  Z.max (Zpos (digits2_pos m) + e - 53) (-1074) = e /\ e <= 971.
Proof.
  unfold Float64.valid, valid_binary, bounded, canonical_mantissa.
  rewrite fexp_eq. intros Hv. apply andb_prop in Hv as [Hc Hb].
  apply Z.eqb_eq in Hc. apply Z.leb_le in Hb.
  change (Float64.emax - Float64.prec) with 971 in Hb. split; assumption.
Qed.

Lemma ltb_finite (m1 m2 : positive) (e1 e2 : Z) :
  Float64.ltb (S754_finite false m1 e1) (S754_finite false m2 e2) = true <->
  e1 < e2 \/ (e1 = e2 /\ Zpos m1 < Zpos m2).
Proof.
  unfold Float64.ltb, SFltb, SFcompare.
  change (Pos.compare_cont Eq m1 m2) with (m1 ?= m2)%positive.
  rewrite Pos2Z.inj_compare.
  destruct (Z.compare_spec e1 e2) as [->|He|He];
    [destruct (Z.compare_spec (Zpos m1) (Zpos m2))|..];
    split; intros Hyp; try reflexivity; try discriminate; lia.
Qed.

Lemma below_one (m : positive) (e : Z) :
  Float64.valid (S754_finite false m e) = true ->
  Float64.ltb (S754_finite false m e) Float64.one = true ->
  e <= -53.
Proof.
  intros Hv Hlt. apply valid_finite in Hv as [Hc _].
  rewrite of_Z_1 in Hlt. apply ltb_finite in Hlt as [Hlt|[-> Hlt]]; [lia|].
  pose proof (digits2_le m 52 ltac:(lia) Hlt). lia.
Qed.

Lemma mul_1000_below (m : positive) (e : Z) :
  Float64.valid (S754_finite false m e) = true ->
  Float64.ltb (S754_finite false m e) Float64.one = true ->
  let v := Float64.mul (S754_finite false m e) (Float64.of_Z 1000) in
  Float64.leb Float64.zero v = true /\ Float64.ltb v (Float64.of_Z 1000) = true.
Proof.
  intros Hv Hlt v. subst v.
  pose proof (below_one m e Hv Hlt) as He.
  apply valid_finite in Hv as [Hc _]. clear Hlt.
  rewrite of_Z_1000. unfold Float64.mul, SFmul. cbn [xorb].
  set (M := 8796093022208000%positive).
  assert (HM : Zpos M = 8796093022208000) by reflexivity.
  set (d := Zpos (digits2_pos m)) in *.
  set (dP := Zpos (digits2_pos (m * M))).
  destruct (digits2_bounds m) as [Hmlo Hmhi]. fold d in Hmlo, Hmhi.
  destruct (digits2_bounds (m * M)) as [HPlo HPhi]. fold dP in HPlo, HPhi.
  assert (Hd : 1 <= d <= 53) by (unfold d in *; lia).
  rewrite Pos2Z.inj_mul, HM in HPlo, HPhi.
  assert (HdP : d + 52 <= dP <= d + 53).
  { split.
    - assert (2 ^ (d + 51) < 2 ^ dP) as Hp.
      { eapply Z.le_lt_trans; [|exact HPhi].
        replace (d + 51) with ((d - 1) + 52) by lia.
        rewrite Z.pow_add_r by lia.
        apply Z.mul_le_mono_nonneg; try lia.
        all: try (apply Z.pow_nonneg; lia).
        all: change (2 ^ 52) with 4503599627370496; lia. }
      apply Z.pow_lt_mono_r_iff in Hp; unfold dP; lia.
    - assert (2 ^ (dP - 1) < 2 ^ (d + 53)) as Hp.
      { eapply Z.le_lt_trans; [exact HPlo|].
        rewrite Z.pow_add_r by lia.
        apply Z.mul_lt_mono_nonneg; try lia.
        all: try (apply Z.pow_nonneg; lia).
        all: change (2 ^ 53) with 9007199254740992; lia. }
      apply Z.pow_lt_mono_r_iff in Hp; lia. }
  assert (Hm53 : Zpos m < 9007199254740992).
  { eapply Z.lt_le_trans; [exact Hmhi|].
    change 9007199254740992 with (2 ^ 53). apply Z.pow_le_mono_r; lia. }
  clear Hmlo Hmhi HPlo HPhi.
  pose proof (round_aux_pos (m * M) (e + -43)) as Hround.
  fold dP in Hround. rewrite fexp_eq in Hround. cbv zeta in Hround.
  set (n := Z.max (dP + (e + -43) - 53) (-1074) - (e + -43)) in *.
  destruct Hround as (m2 & Hm2 & Hbound & Hround); [unfold n; lia..|].
  change Float64.prec with 53. change Float64.emax with 1024. rewrite Hround.
  assert (Hn : 0 < n) by (unfold n; lia).
  assert (He' : e + -43 + n <= -43) by (unfold n; lia).
  assert (Hn53 : e + -43 + n = -43 -> n = 53) by (unfold n; lia).
  assert (Hm2nn : 0 <= m2).
  { assert (0 <= Zpos (m * M) / 2 ^ n) by (apply Z.div_pos; [lia|apply Z.pow_pos_nonneg; lia]).
    lia. }
  rewrite Pos2Z.inj_mul, HM in Hbound. clear Hm2. clearbody n. 
  destruct (Z.eqb_spec m2 0) as [_|Hnz]; [split; reflexivity|].
  assert (Hlast : e + -43 + n = -43 -> m2 < 8796093022208000).
  { intros Heq. rewrite (Hn53 Heq) in Hbound.
    change (2 ^ 53) with 9007199254740992 in Hbound.
    change (2 ^ (53 - 1)) with 4503599627370496 in Hbound. lia. }
  destruct (Z.ltb_spec m2 (2 ^ 53)) as [Hlt53|Hge53].
  - split; [reflexivity|]. apply ltb_finite.
    destruct m2 as [|q|q]; lia.
  - split; [reflexivity|]. apply ltb_finite.
    change (Zpos (2 ^ 52)) with 4503599627370496.
    change (2 ^ 53) with 9007199254740992 in Hge53. lia.
Qed.

(** A double in [[0, 1)] times the integer 1000 is a double in
    [[0, 1000)]. *)
Lemma mul_1000_in_range (r : spec_float) :
  Float64.in_unit_interval r = true ->
  Float64.leb Float64.zero (Float64.mul r (Float64.of_Z 1000)) = true
  /\ Float64.ltb (Float64.mul r (Float64.of_Z 1000)) (Float64.of_Z 1000) = true.
Proof.
  unfold Float64.in_unit_interval. intros Hr.
  apply andb_prop in Hr as [Hr Hlt]. apply andb_prop in Hr as [Hv Hle].
  destruct r as [s|s| |s m e].
  - destruct s; split; reflexivity.
  - destruct s; discriminate.
  - discriminate.
  - destruct s; [discriminate|]. apply mul_1000_below; assumption.
Qed.

End FloatFacts.

(** ** Properties of the sample data generator *)

Section GeneratorFacts.
Import Generator.
Context {G : Type} {RS : RandomSource G}.

Lemma rand_length (n : nat) (g : G) : length (fst (rand n g)) = n.
Proof.
  revert g; induction n as [|n IH]; intros g; simpl; [reflexivity|].
  destruct (random_sample g) as [x g1].
  specialize (IH g1). destruct (rand n g1) as [xs g2]. simpl in *.
  now rewrite IH.
Qed.

Lemma rand_elem (n : nat) (g : G) (x : spec_float) :
  In x (fst (rand n g)) -> exists g', x = fst (random_sample g').
Proof.
  revert g; induction n as [|n IH]; intros g; simpl; [intros []|].
  destruct (random_sample g) as [y g1] eqn:Hy.
  specialize (IH g1). destruct (rand n g1) as [xs g2]. simpl in *.
  intros [<-|Hin]; [exists g; now rewrite Hy | auto].
Qed.

Lemma randint_lt (bound : N) (g : G) :
  (0 < bound)%N -> (fst (randint bound g) < bound)%N.
Proof.
  intros Hb. unfold randint. destruct (random_word g) as [w g1]. simpl.
  apply N.mod_lt. lia.
Qed.

Lemma choice_total {A : Type} (a : list A) (size : nat) (g : G) :
  a <> [] ->
  exists xs g', choice a size g = Some (xs, g') /\ length xs = size
                /\ Forall (fun x => In x a) xs.
Proof.
  intros Ha. revert g; induction size as [|n IH]; intros g; simpl.
  - exists [], g. repeat split. constructor.
  - pose proof (randint_lt (N.of_nat (length a)) g) as Hlt.
    destruct (randint (N.of_nat (length a)) g) as [idx g1]. simpl in Hlt.
    assert (Hidx : (N.to_nat idx < length a)%nat).
    { destruct a; [congruence|]. simpl in *. lia. }
    destruct (lookup_lt_is_Some_2 a _ Hidx) as [x Hx]. rewrite Hx.
    destruct (IH g1) as (xs & g2 & -> & Hlen & Hall).
    exists (x :: xs), g2. repeat split; [simpl; lia|].
    constructor; [|exact Hall].
    apply list_elem_of_In. eapply list_elem_of_lookup_2; eauto.
Qed.

Lemma date_range_2023 :
  exists ts, date_range "2023-01-01" 100 = Some ts /\ length ts = 100%nat.
Proof. eexists. split; [vm_compute; reflexivity | reflexivity]. Qed.

(** The dict the script builds, column by column. *)
Lemma data_columns (g : G) :
  exists rs cats ts acts g',
    data g = Some ([("id", IntCol (range 1 101));
                    ("name", StrCol (map (fun i => "Item " +:+ str i) (range 1 101)));
                    ("value", FloatCol (array_mul_int rs 1000));
                    ("category", StrCol cats);
                    ("date", DateCol ts);
                    ("is_active", BoolCol acts)], g')
    /\ rs = fst (rand 100 g)
    /\ date_range "2023-01-01" 100 = Some ts
    /\ length rs = 100%nat /\ length cats = 100%nat
    /\ length ts = 100%nat /\ length acts = 100%nat.
Proof.
  unfold data.
  pose proof (rand_length 100 g) as Hr.
  destruct (rand 100 g) as [rs g1]. simpl in Hr.
  destruct (choice_total ["A"; "B"; "C"; "D"] 100 g1 ltac:(discriminate))
    as (cats & g2 & -> & Hc & _).
  destruct date_range_2023 as (ts & -> & Ht).
  destruct (choice_total [true; false] 100 g2 ltac:(discriminate))
    as (acts & g3 & -> & Ha & _).
  exists rs, cats, ts, acts, g3. repeat split; assumption.
Qed.

Lemma range_length (a b : Z) : length (range a b) = Z.to_nat (b - a).
Proof. unfold range. apply length_seqZ. Qed.

(** [pd.DataFrame(data)] succeeds, with the dict's columns and 100 rows. *)
Lemma df_columns (g : G) :
  exists rs cats ts acts t,
    df g = Some t
    /\ columns t = [("id", IntCol (range 1 101));
                    ("name", StrCol (map (fun i => "Item " +:+ str i) (range 1 101)));
                    ("value", FloatCol (array_mul_int rs 1000));
                    ("category", StrCol cats);
                    ("date", DateCol ts);
                    ("is_active", BoolCol acts)]
    /\ nrows t = 100%nat
    /\ rs = fst (rand 100 g)
    /\ date_range "2023-01-01" 100 = Some ts
    /\ length rs = 100%nat /\ length cats = 100%nat
    /\ length ts = 100%nat /\ length acts = 100%nat.
Proof.
  destruct (data_columns g) as (rs & cats & ts & acts & g' & Hd & Hrs & Hts & Hr & Hc & Ht & Ha).
  unfold df. rewrite Hd.
  exists rs, cats, ts, acts. eexists.
  unfold DataFrame_of_dict.
  cbn [forallb snd column_length].
  unfold array_mul_int. rewrite !length_map, range_length, Hr, Hc, Ht, Ha.
  change (Z.to_nat (101 - 1)) with 100%nat. cbn [Nat.eqb andb].
  repeat split; try assumption.
Qed.

End GeneratorFacts.

Lemma consecutive_days_step (n i : nat) (first d : Z * Z * Z) :
  Calendar.consecutive_days first n !! i = Some d ->
  (S i < n)%nat ->
  Calendar.consecutive_days first n !! S i = Some (Calendar.next_day d).
Proof.
  revert first i. induction n as [|n IH]; intros first i Hd Hi; [lia|].
  destruct i as [|i].
  - injection Hd as <-. destruct n as [|n]; [lia|]. reflexivity.
  - cbn [Calendar.consecutive_days] in *. rewrite lookup_cons in *.
    apply IH; [exact Hd | lia].
Qed.

Section GeneratorProperties.
Import Generator.
Context {G : Type} {RS : RandomSource G}.

(** C1. For every run of the generator (every random source [g] and every
    working directory [w]) the table is built, has exactly 100 rows and
    exactly the 6 columns id, name, value, category, date, is_active in
    that order, each column 100 entries long, and it is this table that
    the script stores in [example_data_parquet.parquet]. *)
Theorem table_has_100_rows_and_6_named_columns (g : G) (w : world) :
  exists t w',
    df g = Some t
    /\ nrows t = 100%nat
    /\ ncols t = 6%nat
    /\ column_names t = ["id"; "name"; "value"; "category"; "date"; "is_active"]
    /\ Forall (fun kc => column_length (snd kc) = 100%nat) (columns t)
    /\ script g w = Some w'
    /\ files w' !! "example_data_parquet.parquet" = Some t.
Proof.
  destruct (df_columns g)
    as (rs & cats & ts & acts & t & Hdf & Hcols & Hn & _ & _ & Hr & Hc & Ht & Ha).
  exists t. eexists. unfold script, ncols, column_names.
  rewrite Hdf, Hcols. repeat split; try assumption.
  - repeat constructor; cbn [snd column_length]; unfold array_mul_int;
      rewrite ?length_map, ?range_length; assumption || reflexivity.
  - cbn [print to_parquet files]. apply lookup_insert_eq.
Qed.

(** C2. The id column is exactly 1, 2, ..., 100: entry [i] (from 0) is
    [i + 1], so it is strictly ascending and has no gap and no
    duplicate. *)
Theorem id_column_is_1_to_100 (g : G) :
  exists t ids,
    df g = Some t
    /\ get_column "id" t = Some (IntCol ids)
    /\ length ids = 100%nat
    /\ (forall i : nat, (i < 100)%nat -> ids !! i = Some (Z.of_nat i + 1))
    /\ StronglySorted Z.lt ids
    /\ NoDup ids.
Proof.
  destruct (df_columns g) as (rs & cats & ts & acts & t & Hdf & Hcols & _).
  exists t, (range 1 101). unfold get_column. rewrite Hcols.
  split; [exact Hdf|]. split; [reflexivity|]. split; [apply range_length|].
  split; [|split].
  - intros i Hi. unfold range. rewrite lookup_seqZ. split; lia.
  - vm_compute. repeat constructor.
  - apply NoDup_seqZ.
Qed.

(** C5. The date column holds 100 timestamps whose calendar dates start
    at 2023-01-01, end at 2023-04-10, and each of which is the calendar
    day after the one before. *)
Theorem date_column_is_100_consecutive_days (g : G) :
  exists t ts,
    df g = Some t
    /\ get_column "date" t = Some (DateCol ts)
    /\ length ts = 100%nat
    /\ map date_of ts = Calendar.consecutive_days (2023, 1, 1) 100
    /\ map date_of ts !! 0%nat = Some (2023, 1, 1)
    /\ map date_of ts !! 99%nat = Some (2023, 4, 10)
    /\ (forall (i : nat) (d : Z * Z * Z),
           (i < 99)%nat -> map date_of ts !! i = Some d ->
           map date_of ts !! S i = Some (Calendar.next_day d)).
Proof.
  destruct (df_columns g)
    as (rs & cats & ts & acts & t & Hdf & Hcols & _ & _ & Hts & _ & _ & Hlen & _).
  exists t, ts. unfold get_column. rewrite Hcols.
  split; [exact Hdf|]. split; [reflexivity|]. split; [exact Hlen|].
  assert (Hdays : map date_of ts = Calendar.consecutive_days (2023, 1, 1) 100).
  { clear -Hts. vm_compute in Hts. injection Hts as <-. vm_compute. reflexivity. }
  rewrite Hdays. clear Hdays.
  split; [reflexivity|]. split; [reflexivity|]. split; [vm_compute; reflexivity|].
  intros i d Hi Hd. apply consecutive_days_step; [exact Hd | lia].
Qed.

(** C9. In every row the name is the text [Item ] followed by the decimal
    representation of that row's id: row [i] (from 0) has id [i + 1] and
    name [Item (i + 1)]. *)
Theorem name_column_is_item_id (g : G) :
  exists t ids names,
    df g = Some t
    /\ get_column "id" t = Some (IntCol ids)
    /\ get_column "name" t = Some (StrCol names)
    /\ length names = 100%nat
    /\ names !! 0%nat = Some "Item 1" /\ names !! 99%nat = Some "Item 100"
    /\ (forall i : nat, (i < 100)%nat ->
          exists id, ids !! i = Some id /\ id = Z.of_nat i + 1
                     /\ names !! i = Some ("Item " +:+ pretty id)).
Proof.
  destruct (df_columns g) as (rs & cats & ts & acts & t & Hdf & Hcols & _).
  exists t, (range 1 101), (map (fun i => "Item " +:+ str i) (range 1 101)).
  unfold get_column. rewrite Hcols.
  split; [exact Hdf|]. split; [reflexivity|]. split; [reflexivity|].
  split; [rewrite length_map; apply range_length|].
  split; [vm_compute; reflexivity|]. split; [vm_compute; reflexivity|].
  intros i Hi. exists (Z.of_nat i + 1).
  assert (Hid : range 1 101 !! i = Some (Z.of_nat i + 1)).
  { unfold range. rewrite lookup_seqZ. split; lia. }
  split; [exact Hid|]. split; [reflexivity|].
  change (map ?f ?l) with (f <$> l). rewrite list_lookup_fmap, Hid. reflexivity.
Qed.

(** C6. If every draw of the random source is a double [r] with
    [0 <= r < 1], then every entry [v] of the value column satisfies
    [0 <= v < 1000] (in binary64, after the rounding of [r * 1000]). *)
Theorem value_column_within_0_1000 (g : G) :
  (forall g' : G, Float64.in_unit_interval (fst (random_sample g')) = true) ->
  exists t vs,
    df g = Some t
    /\ get_column "value" t = Some (FloatCol vs)
    /\ length vs = 100%nat
    /\ Forall (fun v => Float64.leb Float64.zero v = true
                        /\ Float64.ltb v (Float64.of_Z 1000) = true) vs.
Proof.
  intros Hdraw.
  destruct (df_columns g)
    as (rs & cats & ts & acts & t & Hdf & Hcols & _ & Hrs & _ & Hr & _).
  exists t, (array_mul_int rs 1000). unfold get_column. rewrite Hcols.
  split; [exact Hdf|]. split; [reflexivity|].
  unfold array_mul_int. split; [rewrite length_map; exact Hr|].
  apply List.Forall_forall. intros v Hv.
  apply List.in_map_iff in Hv as (r & <- & Hin).
  subst rs. apply rand_elem in Hin as (g' & ->).
  apply mul_1000_in_range, Hdraw.
Qed.

End GeneratorProperties.

(** The hypothesis of C6 holds of [Sources.flip], whose draws include the
    largest double below 1. *)
Lemma value_column_within_0_1000_witness :
  (forall b : bool,
      Float64.in_unit_interval
        (fst (Generator.random_sample (RandomSource := Sources.flip) b)) = true)
  /\ exists t vs,
      Generator.df (RS := Sources.flip) true = Some t
      /\ Generator.get_column "value" t = Some (Generator.FloatCol vs)
      /\ length vs = 100%nat
      /\ Forall (fun v => Float64.leb Float64.zero v = true
                          /\ Float64.ltb v (Float64.of_Z 1000) = true) vs.
Proof.
  assert (Hdraw : forall b : bool,
             Float64.in_unit_interval
               (fst (Generator.random_sample (RandomSource := Sources.flip) b)) = true)
    by (intros []; vm_compute; reflexivity).
  split; [exact Hdraw|].
  exact (value_column_within_0_1000 (RS := Sources.flip) true Hdraw).
Defined.

Section GeneratorRuns.
Import Generator.

(** C10. Any two runs, whatever their random sources, build tables with
    the same id, name and date columns; the value, category and is_active
    columns do depend on the draws: the two seeds of [Sources.flip] give
    different ones. *)
Theorem id_name_date_do_not_depend_on_the_draws :
  (forall (G1 G2 : Type) (R1 : RandomSource G1) (R2 : RandomSource G2)
          (g1 : G1) (g2 : G2),
      exists t1 t2,
        df g1 = Some t1 /\ df g2 = Some t2
        /\ is_Some (get_column "id" t1)
        /\ is_Some (get_column "name" t1)
        /\ is_Some (get_column "date" t1)
        /\ get_column "id" t1 = get_column "id" t2
        /\ get_column "name" t1 = get_column "name" t2
        /\ get_column "date" t1 = get_column "date" t2)
  /\ (exists t1 t2,
        df (RS := Sources.flip) false = Some t1
        /\ df (RS := Sources.flip) true = Some t2
        /\ get_column "value" t1 <> get_column "value" t2
        /\ get_column "category" t1 <> get_column "category" t2
        /\ get_column "is_active" t1 <> get_column "is_active" t2).
Proof.
  split.
  - intros G1 G2 R1 R2 g1 g2.
    destruct (df_columns g1)
      as (rs1 & cats1 & ts1 & acts1 & t1 & Hdf1 & Hcols1 & _ & _ & Hts1 & _).
    destruct (df_columns g2)
      as (rs2 & cats2 & ts2 & acts2 & t2 & Hdf2 & Hcols2 & _ & _ & Hts2 & _).
    exists t1, t2. unfold get_column. rewrite Hcols1, Hcols2.
    assert (ts1 = ts2) as -> by congruence.
    cbn [assoc String.eqb Ascii.eqb Bool.eqb].
    repeat split; eauto.
  - eexists. eexists.
    split; [vm_compute; reflexivity|]. split; [vm_compute; reflexivity|].
    repeat split; vm_compute; discriminate.
Qed.

End GeneratorRuns.

(** ** Properties of the diagram renderer *)

Section VisualizerFacts.
Import Visualizer.
Local Open Scope script_scope.

(** *** The monad *)

Lemma bind_ok {A B} (m : M A) (k : A -> M B) (w w1 : world) (a : A) :
  m w = (Ok a, w1) -> bind m k w = k a w1.
Proof. unfold bind. intros ->. reflexivity. Qed.

Lemma bind_raise {A B} (m : M A) (k : A -> M B) (w w1 : world) (e : exn) :
  m w = (Raise e, w1) -> bind m k w = (Raise e, w1).
Proof. unfold bind. intros ->. reflexivity. Qed.

Lemma bind_ok_inv {A B} (m : M A) (k : A -> M B) (w w' : world) (b : B) :
  bind m k w = (Ok b, w') ->
  exists a w1, m w = (Ok a, w1) /\ k a w1 = (Ok b, w').
Proof. unfold bind. destruct (m w) as [[a|e] w1]; [eauto | discriminate]. Qed.


Lemma bind_assoc {A B C} (m : M A) (k : A -> M B) (h : B -> M C) (w : world) :
  bind (bind m k) h w = bind m (fun a => bind (k a) h) w.
Proof. unfold bind. destruct (m w) as [[a|e] w1]; reflexivity. Qed.

Lemma bind_ext {A B} (m : M A) (k1 k2 : A -> M B) (w : world) :
  (forall a w1, k1 a w1 = k2 a w1) -> bind m k1 w = bind m k2 w.
Proof. intros Hk. unfold bind. destruct (m w) as [[a|e] w1]; auto. Qed.

(** *** Paths *)

Lemma path_snoc_ne (p : path) (x : string) : p <> p ++ [x].
Proof.
  intros Heq. apply (f_equal (@length string)) in Heq.
  rewrite length_app in Heq. simpl in Heq. lia.
Qed.

Lemma append_ne (s t : string) : t <> EmptyString -> s <> s +:+ t.
Proof.
  intros Ht. induction s as [|c s IH]; simpl.
  - intros Heq. apply Ht. symmetry. exact Heq.
  - intros [= Heq]. auto.
Qed.

Lemma source_ne_output (p : path) (f : string) : p ++ [f] <> p ++ [f +:+ ".png"].
Proof.
  intros Heq. apply app_inv_head in Heq. injection Heq as Heq.
  revert Heq. apply append_ne. discriminate.
Qed.

(** *** [render] and [create] *)

Lemma drawn_source (d : diagram) (dir : path) (png : string) (m : gmap path inode) :
  drawn d dir png m !! (dir ++ [filename d]) = None.
Proof. unfold drawn. apply lookup_delete_eq. Qed.

Lemma drawn_output (d : diagram) (dir : path) (png : string) (m : gmap path inode) :
  drawn d dir png m !! (dir ++ [output d]) = Some (File (Image png)).
Proof.
  unfold drawn, output.
  rewrite lookup_delete_ne by apply source_ne_output.
  apply lookup_insert_eq.
Qed.

Lemma drawn_other (d : diagram) (dir : path) (png : string) (m : gmap path inode)
      (p : path) :
  p <> dir ++ [filename d] -> p <> dir ++ [output d] ->
  drawn d dir png m !! p = m !! p.
Proof.
  intros H1 H2. unfold drawn.
  rewrite lookup_delete_ne, !lookup_insert_ne by congruence. reflexivity.
Qed.

Lemma drawn_again (d : diagram) (dir : path) (png : string) (m : gmap path inode) :
  m !! (dir ++ [filename d]) = None ->
  m !! (dir ++ [output d]) = Some (File (Image png)) ->
  drawn d dir png m = m.
Proof.
  intros Hs Ho. apply map_eq. intros p.
  destruct (decide (p = dir ++ [filename d])) as [->|H1];
    [rewrite drawn_source; symmetry; exact Hs|].
  destruct (decide (p = dir ++ [output d])) as [->|H2];
    [rewrite drawn_output; symmetry; exact Ho|].
  apply drawn_other; assumption.
Qed.

Lemma create_ok_inv (d : diagram) (w w' : world) :
  create d w = (Ok tt, w') ->
  fs w !! cwd w = Some Dir
  /\ exists png,
      backend w (graph d) = Some png
      /\ w' = mkWorld (drawn d (cwd w) png (fs w)) (cwd w) (backend w)
                      (log w ++ events d).
Proof.
  unfold create, bind, render, print, record, set_fs, events, drawn, output.
  cbn [fs cwd backend log].
  destruct (fs w !! cwd w) as [[|c]|] eqn:Hcwd;
    [|destruct (fs w !! (cwd w ++ [filename d])); discriminate
     |destruct (fs w !! (cwd w ++ [filename d])); discriminate].
  destruct (fs w !! (cwd w ++ [filename d])) as [[|c]|] eqn:Hsrc; try discriminate;
    (destruct (backend w (graph d)) as [png|] eqn:Hb; [|discriminate]);
    match goal with
    | |- context [match ?x with _ => _ end] => destruct x as [[|c']|] eqn:Hout
    end; try discriminate;
    intros [= <-]; (split; [reflexivity|]); exists png;
    (split; [reflexivity|]); rewrite <- app_assoc; reflexivity.
Qed.

Lemma create_raise_inv (d : diagram) (w w' : world) (e : exn) :
  create d w = (Raise e, w') ->
  cwd w' = cwd w /\ backend w' = backend w
  /\ log w' = log w ++ [Render (filename d)]
  /\ forall p : path, p <> cwd w ++ [filename d] -> fs w' !! p = fs w !! p.
Proof.
  unfold create, bind, render, print, record, set_fs.
  cbn [fs cwd backend log].
  destruct (fs w !! cwd w) as [[|c]|] eqn:Hcwd;
    destruct (fs w !! (cwd w ++ [filename d])) as [[|c0]|] eqn:Hsrc;
    try (intros [= <- <-]; cbn [fs cwd backend log]; now auto);
    (destruct (backend w (graph d)) as [png|] eqn:Hb;
     [|intros [= <- <-]; cbn [fs cwd backend log];
       repeat split; intros p Hp; now rewrite lookup_insert_ne by congruence]);
    match goal with
    | |- context [match ?x with _ => _ end] => destruct x as [[|c']|] eqn:Hout
    end; try discriminate;
    intros [= <- <-]; cbn [fs cwd backend log];
    repeat split; intros p Hp; now rewrite lookup_insert_ne by congruence.
Qed.

(** Drawing a diagram whose picture is already there (and whose
    description is not) succeeds and leaves the files as they are. *)
Lemma create_again (d : diagram) (w : world) (png : string) :
  fs w !! cwd w = Some Dir ->
  fs w !! (cwd w ++ [filename d]) = None ->
  fs w !! (cwd w ++ [output d]) = Some (File (Image png)) ->
  backend w (graph d) = Some png ->
  create d w = (Ok tt, mkWorld (fs w) (cwd w) (backend w) (log w ++ events d)).
Proof.
  intros Hcwd Hsrc Hout Hb.
  unfold create, bind, render, print, record, set_fs.
  cbn [fs cwd backend log]. rewrite Hcwd, Hsrc, Hb.
  change (filename d +:+ "." +:+ "png") with (output d).
  rewrite lookup_insert_ne by apply source_ne_output. rewrite Hout.
  cbn [fs cwd backend log]. unfold events. rewrite <- app_assoc.
  do 2 f_equal. apply (drawn_again d (cwd w) png (fs w)); assumption.
Qed.

(** *** [setup] *)

Lemma setup_ok_inv (w w2 : world) :
  setup w = (Ok tt, w2) ->
  cwd w2 = cwd w ++ ["diagrams"] /\ backend w2 = backend w
  /\ log w2 = log w ++ [Makedirs "diagrams"; Chdir "diagrams"]
  /\ fs w2 !! cwd w2 = Some Dir
  /\ (forall p : path, p <> cwd w ++ ["diagrams"] -> fs w2 !! p = fs w !! p).
Proof.
  unfold setup, bind, makedirs, chdir, record, set_fs, set_cwd.
  cbn [fs cwd backend log].
  destruct (fs w !! (cwd w ++ ["diagrams"])) as [[|c]|] eqn:Hd; try discriminate.
  - cbn [fs cwd backend log]. rewrite Hd. intros [= <-]. cbn [fs cwd backend log].
    rewrite <- app_assoc. repeat split; auto.
  - destruct (fs w !! cwd w) as [[|c]|] eqn:Hcwd; try discriminate.
    cbn [fs cwd backend log]. rewrite lookup_insert_eq.
    intros [= <-]. cbn [fs cwd backend log].
    rewrite <- app_assoc, lookup_insert_eq. repeat split; auto.
    intros p Hp. now rewrite lookup_insert_ne by congruence.
Qed.

(** *** [run_all] *)

Lemma names_in (d : diagram) (ds : list diagram) :
  In d ds -> In (filename d) (names ds) /\ In (output d) (names ds).
Proof.
  intros Hd. unfold names. split; apply in_flat_map; exists d; simpl; auto.
Qed.

Lemma snoc_ne (dir : path) (a b : string) : a <> b -> dir ++ [a] <> dir ++ [b].
Proof. intros Hab Heq. apply app_inv_head in Heq. congruence. Qed.

Lemma run_all_app (l1 l2 : list diagram) (w : world) :
  run_all (l1 ++ l2) w = bind (run_all l1) (fun _ => run_all l2) w.
Proof.
  revert w. induction l1 as [|d l1 IH]; intros w; [reflexivity|].
  cbn [app run_all]. rewrite bind_assoc. apply bind_ext. intros _ w1. apply IH.
Qed.

Lemma run_all_ok_inv (ds : list diagram) (w w' : world) :
  NoDup (names ds) ->
  run_all ds w = (Ok tt, w') ->
  cwd w' = cwd w /\ backend w' = backend w
  /\ log w' = log w ++ flat_map events ds
  /\ (ds <> [] -> fs w !! cwd w = Some Dir)
  /\ (forall d, In d ds ->
        exists png, backend w (graph d) = Some png
                    /\ fs w' !! (cwd w ++ [filename d]) = None
                    /\ fs w' !! (cwd w ++ [output d]) = Some (File (Image png)))
  /\ (forall p : path,
        (forall d, In d ds -> p <> cwd w ++ [filename d] /\ p <> cwd w ++ [output d]) ->
        fs w' !! p = fs w !! p).
Proof.
  revert w. induction ds as [|d ds IH]; intros w Hnd Hrun.
  - injection Hrun as <-. rewrite app_nil_r.
    repeat split; try reflexivity; try congruence. intros d [].
  - cbn [run_all] in Hrun. apply bind_ok_inv in Hrun as ([] & w1 & Hd & Hrest).
    apply create_ok_inv in Hd as (Hcwd & png & Hb & ->).
    cbn [names flat_map app] in Hnd. fold (names ds) in Hnd.
    apply NoDup_cons in Hnd as [Hf Hnd]. apply NoDup_cons in Hnd as [Ho Hnd].
    rewrite list_elem_of_In in Hf, Ho.
    destruct (IH _ Hnd Hrest) as (Hc & Hbk & Hlog & _ & Hall & Hframe).
    cbn [fs cwd backend log] in *.
    assert (Hfresh : forall n, ~ In n (names ds) ->
              forall d', In d' ds ->
                cwd w ++ [n] <> cwd w ++ [filename d']
                /\ cwd w ++ [n] <> cwd w ++ [output d']).
    { intros n Hn d' Hd'. destruct (names_in d' ds Hd') as [H1 H2].
      split; apply snoc_ne; congruence. }
    split; [exact Hc|]. split; [exact Hbk|].
    split; [rewrite Hlog, <- app_assoc; reflexivity|].
    split; [intros _; exact Hcwd|]. split.
    + intros d' [<-|Hd'].
      * exists png. split; [exact Hb|]. split.
        -- rewrite Hframe by (apply Hfresh; simpl in Hf; tauto).
           apply drawn_source.
        -- rewrite Hframe by (apply Hfresh; exact Ho). apply drawn_output.
      * apply Hall, Hd'.
    + intros p Hp. rewrite Hframe by (intros d' Hd'; apply Hp; now right).
      destruct (Hp d (or_introl eq_refl)). apply drawn_other; assumption.
Qed.

Lemma run_all_again (ds : list diagram) (w : world) :
  fs w !! cwd w = Some Dir ->
  (forall d, In d ds ->
     exists png, backend w (graph d) = Some png
                 /\ fs w !! (cwd w ++ [filename d]) = None
                 /\ fs w !! (cwd w ++ [output d]) = Some (File (Image png))) ->
  run_all ds w
  = (Ok tt, mkWorld (fs w) (cwd w) (backend w) (log w ++ flat_map events ds)).
Proof.
  revert w. induction ds as [|d ds IH]; intros w Hcwd Hall.
  - destruct w. cbn. rewrite app_nil_r. reflexivity.
  - destruct (Hall d (or_introl eq_refl)) as (png & Hb & Hs & Ho).
    cbn [run_all]. erewrite bind_ok by (eapply create_again; eassumption).
    rewrite IH; cbn [fs cwd backend log]; auto.
    + cbn [flat_map]. rewrite <- app_assoc. reflexivity.
    + intros d' Hd'. apply Hall. now right.
Qed.

Lemma run_all_fail (ds : list diagram) (k : nat) (d : diagram)
      (w wk wk' : world) (e : exn) :
  run_all (take k ds) w = (Ok tt, wk) ->
  ds !! k = Some d ->
  create d wk = (Raise e, wk') ->
  run_all ds w = (Raise e, wk').
Proof.
  intros Hpre Hk Hd. rewrite <- (take_drop_middle ds k d Hk).
  rewrite run_all_app. erewrite bind_ok by exact Hpre.
  cbn [run_all]. apply bind_raise. exact Hd.
Qed.

Lemma run_all_take (ds : list diagram) (j k : nat) (w wk : world) :
  run_all (take k ds) w = (Ok tt, wk) -> (j <= k)%nat ->
  exists wj, run_all (take j ds) w = (Ok tt, wj)
             /\ run_all (drop j (take k ds)) wj = (Ok tt, wk).
Proof.
  intros Hk Hj. rewrite <- (take_drop j (take k ds)) in Hk.
  rewrite run_all_app in Hk. apply bind_ok_inv in Hk as ([] & wj & H1 & H2).
  exists wj. split; [|exact H2].
  rewrite take_take in H1. replace (j `min` k)%nat with j in H1 by lia. exact H1.
Qed.

(** *** [main] *)

Lemma main_try_eq (w : world) :
  main_try w
  = bind setup (fun _ => bind (run_all routines) (fun _ => print
      "All diagrams created successfully in the 'diagrams' directory")) w.
Proof.
  unfold main_try, setup, routines, run_all.
  change create_image_classifier_diagram with (create image_classifier).
  change create_text_analyzer_diagram with (create text_analyzer).
  change create_data_predictor_diagram with (create data_predictor).
  change create_templates_overview with (create templates_overview).
  unfold bind, ret.
  destruct (makedirs "diagrams" true w) as [[[]|e] w1]; [|reflexivity].
  destruct (chdir "diagrams" w1) as [[[]|e] w2]; [|reflexivity].
  destruct (create image_classifier w2) as [[[]|e] w3]; [|reflexivity].
  destruct (create text_analyzer w3) as [[[]|e] w4]; [|reflexivity].
  destruct (create data_predictor w4) as [[[]|e] w5]; [|reflexivity].
  destruct (create templates_overview w5) as [[[]|e] w6]; reflexivity.
Qed.

(** The table [routines] lists the four functions of the script, in the
    order of [main]. *)
Lemma routines_are_the_four_functions :
  map create routines
  = [create_image_classifier_diagram; create_text_analyzer_diagram;
     create_data_predictor_diagram; create_templates_overview].
Proof. reflexivity. Qed.

Lemma routines_names_distinct : NoDup (names routines).
Proof. compute_done. Qed.

Lemma names_app (l1 l2 : list diagram) : names (l1 ++ l2) = names l1 ++ names l2.
Proof. unfold names. apply flat_map_app. Qed.

Lemma makedirs_existing (w : world) :
  fs w !! (cwd w ++ ["diagrams"]) = Some Dir ->
  makedirs "diagrams" true w = (Ok tt, record (Makedirs "diagrams") w).
Proof. intros Hd. unfold makedirs. cbn [record fs cwd]. rewrite Hd. reflexivity. Qed.

Lemma makedirs_occupied (w : world) (c : content) :
  fs w !! (cwd w ++ ["diagrams"]) = Some (File c) ->
  makedirs "diagrams" true w
  = (Raise (FileExistsError "diagrams"), record (Makedirs "diagrams") w).
Proof. intros Hd. unfold makedirs. cbn [record fs cwd]. rewrite Hd. reflexivity. Qed.

Lemma makedirs_ok_inv (w w1 : world) :
  makedirs "diagrams" true w = (Ok tt, w1) ->
  fs w1 !! (cwd w ++ ["diagrams"]) = Some Dir.
Proof.
  unfold makedirs, record, set_fs. cbn [fs cwd backend log].
  destruct (fs w !! (cwd w ++ ["diagrams"])) as [[|c]|] eqn:Hd; try discriminate.
  - intros [= <-]. exact Hd.
  - destruct (fs w !! cwd w) as [[|c]|]; try discriminate.
    intros [= <-]. apply lookup_insert_eq.
Qed.

Lemma setup_existing (w : world) :
  fs w !! (cwd w ++ ["diagrams"]) = Some Dir ->
  setup w = (Ok tt, mkWorld (fs w) (cwd w ++ ["diagrams"]) (backend w)
                      (log w ++ [Makedirs "diagrams"; Chdir "diagrams"])).
Proof.
  intros Hd. unfold setup. erewrite bind_ok by (apply makedirs_existing, Hd).
  unfold chdir, record, set_cwd. cbn [fs cwd backend log]. rewrite Hd.
  rewrite <- app_assoc. reflexivity.
Qed.

(** A run of [main] whose [try] block succeeds, taken apart. *)
Lemma main_ok_inv (w w1 : world) :
  main w = (0, w1) ->
  exists w2 w6,
    setup w = (Ok tt, w2) /\ run_all routines w2 = (Ok tt, w6)
    /\ w1 = record success_line w6.
Proof.
  unfold main. destruct (main_try w) as [[[]|e] w'] eqn:Htry; [|discriminate].
  intros [= <-]. rewrite main_try_eq in Htry.
  apply bind_ok_inv in Htry as ([] & w2 & Hsetup & Htry).
  apply bind_ok_inv in Htry as ([] & w6 & Hrun & Hprint).
  injection Hprint as <-. eauto.
Qed.

End VisualizerFacts.

Section VisualizerProperties.
Import Visualizer.
Local Open Scope script_scope.

(** C7. In each of the three per-template graphs there is exactly one
    grouping; it is labeled [Data Flow], has no grouping inside, holds 3
    to 4 distinct stage nodes, and its edges are exactly the unlabeled
    chain from each stage to the next one; no edge outside the grouping
    joins two stages either. *)
Theorem data_flow_grouping_is_a_chain :
  Forall (fun g =>
            exists name sb,
              subgraphs (body g) = [(name, sb)]
              /\ group_label sb = Some "Data Flow"
              /\ subgraphs sb = []
              /\ NoDup (nodes sb)
              /\ (3 <= length (nodes sb) <= 4)%nat
              /\ edges sb = chain (nodes sb)
              /\ List.filter (between (nodes sb)) (edges (body g)) = [])
         [image_classifier_graph; text_analyzer_graph; data_predictor_graph].
Proof.
  repeat (apply List.Forall_cons;
          [eexists _, _; split; [vm_compute; reflexivity|];
           split; [reflexivity|]; split; [reflexivity|];
           split; [compute_done|]; split; [cbn; lia|];
           split; [reflexivity | vm_compute; reflexivity]|]).
  apply List.Forall_nil.
Qed.

(** C3. [main] makes sure the directory [diagrams] exists, accepting one
    that is already there; enters it; calls the four routines in the
    order image classifier, text analyzer, data predictor, overview; and
    returns 0 when every step succeeds. When a step raises it prints
    [Error creating diagrams: ...] and returns 1; this is what happens
    when a regular file named [diagrams] is in the way. *)
Theorem main_creates_the_directory_and_reports_the_exit_status (w : world) :
  (fs w !! (cwd w ++ ["diagrams"]) = Some Dir ->
   makedirs "diagrams" true w = (Ok tt, record (Makedirs "diagrams") w))
  /\ (forall w1 w2 w3 w4 w5 w6 : world,
        makedirs "diagrams" true w = (Ok tt, w1) ->
        chdir "diagrams" w1 = (Ok tt, w2) ->
        create_image_classifier_diagram w2 = (Ok tt, w3) ->
        create_text_analyzer_diagram w3 = (Ok tt, w4) ->
        create_data_predictor_diagram w4 = (Ok tt, w5) ->
        create_templates_overview w5 = (Ok tt, w6) ->
        main w = (0, record success_line w6)
        /\ fs w1 !! (cwd w ++ ["diagrams"]) = Some Dir
        /\ cwd w6 = cwd w ++ ["diagrams"]
        /\ log (snd (main w))
           = log w ++ [Makedirs "diagrams"; Chdir "diagrams";
                       Render "burn-image-classifier-diagram";
                       Print "Created image classifier diagram: burn-image-classifier-diagram.png";
                       Render "burn-text-analyzer-diagram";
                       Print "Created text analyzer diagram: burn-text-analyzer-diagram.png";
                       Render "burn-data-predictor-diagram";
                       Print "Created data predictor diagram: burn-data-predictor-diagram.png";
                       Render "burn-templates-overview";
                       Print "Created templates overview: burn-templates-overview.png";
                       success_line])
  /\ (forall (e : exn) (w' : world),
        main_try w = (Raise e, w') ->
        main w = (1, record (Print ("Error creating diagrams: " +:+ exn_message e)) w'))
  /\ (fst (main w) = 0 \/ fst (main w) = 1)
  /\ (forall c : content,
        fs w !! (cwd w ++ ["diagrams"]) = Some (File c) ->
        main w = (1, record (Print "Error creating diagrams: [Errno 17] File exists: 'diagrams'")
                       (record (Makedirs "diagrams") w))).
Proof.
  split; [apply makedirs_existing|]. split; [|split; [|split]].
  - intros w1 w2 w3 w4 w5 w6 H1 H2 H3 H4 H5 H6.
    assert (Hsetup : setup w = (Ok tt, w2)).
    { unfold setup. erewrite bind_ok by exact H1. exact H2. }
    assert (Hrun : run_all routines w2 = (Ok tt, w6)).
    { unfold routines, run_all.
      erewrite bind_ok by exact H3. erewrite bind_ok by exact H4.
      erewrite bind_ok by exact H5. erewrite bind_ok by exact H6. reflexivity. }
    assert (Hmain : main w = (0, record success_line w6)).
    { unfold main. rewrite main_try_eq.
      erewrite bind_ok by exact Hsetup. erewrite bind_ok by exact Hrun.
      reflexivity. }
    apply setup_ok_inv in Hsetup as (Hc2 & _ & Hl2 & _).
    apply run_all_ok_inv in Hrun as (Hc6 & _ & Hl6 & _);
      [|apply routines_names_distinct].
    split; [exact Hmain|]. split; [eapply makedirs_ok_inv, H1|].
    split; [congruence|].
    rewrite Hmain. cbn [snd record log]. rewrite Hl6, Hl2.
    rewrite <- !app_assoc. reflexivity.
  - intros e w' Htry. unfold main. rewrite Htry. reflexivity.
  - unfold main. destruct (main_try w) as [[[]|e] w']; auto.
  - intros c Hc. unfold main, main_try.
    erewrite bind_raise by (eapply makedirs_occupied, Hc). reflexivity.
Qed.

(** C4. After a run that returned 0, a second run started from the same
    directory also returns 0, performs the same calls and prints the same
    lines (so it writes the same four file names), leaves every file as
    the first run left it, and its [makedirs] step succeeds on the
    directory that is already there. *)
Theorem rerunning_is_idempotent (w w1 : world) :
  main w = (0, w1) ->
  exists evs : list event,
    log w1 = log w ++ evs
    /\ main (spawn (cwd w) w1)
       = (0, mkWorld (fs w1) (cwd w ++ ["diagrams"]) (backend w) evs)
    /\ makedirs "diagrams" true (spawn (cwd w) w1)
       = (Ok tt, record (Makedirs "diagrams") (spawn (cwd w) w1))
    /\ Forall (fun d =>
                 In (Render (filename d)) evs
                 /\ exists png,
                     backend w (graph d) = Some png
                     /\ fs w1 !! (cwd w ++ ["diagrams"; output d])
                        = Some (File (Image png)))
              routines.
Proof.
  intros Hmain.
  apply main_ok_inv in Hmain as (w2 & w6 & Hsetup & Hrun & ->).
  apply setup_ok_inv in Hsetup as (Hc2 & Hb2 & Hl2 & Hdir & _).
  apply run_all_ok_inv in Hrun as (Hc6 & Hb6 & Hl6 & _ & Hall & Hframe);
    [|apply routines_names_distinct].
  rewrite Hc2 in *. rewrite Hb2 in *.
  assert (Hdir6 : fs w6 !! (cwd w ++ ["diagrams"]) = Some Dir).
  { rewrite Hframe; [exact Hdir|].
    intros d _. split; apply path_snoc_ne. }
  exists ([Makedirs "diagrams"; Chdir "diagrams"]
          ++ flat_map events routines ++ [success_line]).
  cbn [record fs cwd backend log spawn].
  split; [rewrite Hl6, Hl2, <- !app_assoc; reflexivity|].
  split; [|split].
  - unfold main. rewrite main_try_eq.
    erewrite bind_ok by (apply setup_existing; exact Hdir6).
    cbn [fs cwd backend log spawn].
    erewrite bind_ok
      by (apply run_all_again; cbn [record spawn fs cwd backend log];
          [exact Hdir6 | rewrite Hb6; exact Hall]).
    unfold print, record. cbn [spawn fs cwd backend log app].
    rewrite Hb6. reflexivity.
  - apply makedirs_existing. exact Hdir6.
  - apply List.Forall_forall. intros d Hd.
    destruct (Hall d Hd) as (png & Hb & _ & Hout). split.
    + apply in_or_app. right. apply in_or_app. left.
      apply in_flat_map. exists d. split; [exact Hd | now left].
    + exists png. split; [exact Hb|].
      rewrite <- Hout, <- app_assoc. reflexivity.
Qed.

(** C8. If, after the directory was set up, the first [k] routines
    succeed and routine [k] raises, then [main] returns 1 whatever [k]
    is; the run consists of the [k] earlier renders, the failed render
    and the error line, each render called once and nothing called to
    clean up; and the picture of every earlier routine is still on disk
    with the content that routine gave it. *)
Theorem a_failing_routine_keeps_the_earlier_pictures
        (w w2 wk wk' : world) (k : nat) (d : diagram) (e : exn) :
  setup w = (Ok tt, w2) ->
  run_all (take k routines) w2 = (Ok tt, wk) ->
  routines !! k = Some d ->
  create d wk = (Raise e, wk') ->
  main w = (1, record (error_line e) wk')
  /\ log (snd (main w))
     = log w ++ [Makedirs "diagrams"; Chdir "diagrams"]
             ++ flat_map events (take k routines)
             ++ [Render (filename d); error_line e]
  /\ (forall (j : nat) (dj : diagram),
        routines !! j = Some dj -> (j < k)%nat ->
        exists (wj : world) (png : string),
          run_all (take (S j) routines) w2 = (Ok tt, wj)
          /\ backend w (graph dj) = Some png
          /\ fs wj !! (cwd w ++ ["diagrams"; output dj]) = Some (File (Image png))
          /\ fs (snd (main w)) !! (cwd w ++ ["diagrams"; output dj])
             = Some (File (Image png))).
Proof.
  intros Hsetup Hpre Hk Hd.
  assert (Hmain : main w = (1, record (error_line e) wk')).
  { pose proof (run_all_fail routines k d w2 wk wk' e Hpre Hk Hd) as Hfail.
    unfold main. rewrite main_try_eq. erewrite bind_ok by exact Hsetup.
    rewrite (bind_raise (run_all routines) _ w2 wk' e Hfail). reflexivity. }
  pose proof routines_names_distinct as Hnd.
  rewrite <- (take_drop_middle routines k d Hk), names_app in Hnd.
  apply NoDup_app in Hnd as (Hnd1 & Hdisj & _).
  apply setup_ok_inv in Hsetup as (Hc2 & Hb2 & Hl2 & _).
  pose proof Hpre as Hpre'.
  apply run_all_ok_inv in Hpre' as (Hck & Hbk & Hlk & _ & Hall & _);
    [|exact Hnd1].
  apply create_raise_inv in Hd as (_ & _ & Hlk' & Hframe').
  rewrite Hmain. cbn [snd record fs log]. split; [reflexivity|]. split.
  - rewrite Hlk', Hlk, Hl2, <- !app_assoc. reflexivity.
  - intros j dj Hj Hjk.
    assert (Hin : In dj (take k routines)).
    { apply list_elem_of_In. eapply list_elem_of_lookup_2 with (i := j).
      rewrite lookup_take_lt by exact Hjk. exact Hj. }
    destruct (run_all_take routines (S j) k w2 wk Hpre ltac:(lia))
      as (wj & Hwj & _).
    exists wj.
    destruct (Hall dj Hin) as (png & Hb & _ & Hout).
    exists png. split; [exact Hwj|]. split; [congruence|].
    replace (cwd w ++ ["diagrams"; output dj]) with (cwd w2 ++ [output dj])
      by (rewrite Hc2, <- app_assoc; reflexivity).
    split.
    + assert (Hnd' : NoDup (names (take (S j) routines))).
      { pose proof routines_names_distinct as Hnd'.
        rewrite <- (take_drop (S j) routines), names_app in Hnd'.
        apply NoDup_app in Hnd' as (Hnd' & _). exact Hnd'. }
      apply run_all_ok_inv in Hwj as (_ & _ & _ & _ & Hallj & _); [|exact Hnd'].
      destruct (Hallj dj) as (png' & Hb' & _ & Hout').
      { apply list_elem_of_In. eapply list_elem_of_lookup_2 with (i := j).
        rewrite lookup_take_lt by lia. exact Hj. }
      rewrite Hout'. congruence.
    + rewrite Hframe'; [exact Hout|]. rewrite Hck. apply snoc_ne.
      intros Heq. apply (Hdisj (output dj)).
      * apply list_elem_of_In. apply (names_in dj _ Hin).
      * rewrite Heq. cbn. left.
Qed.

End VisualizerProperties.

(** *** The properties at the sample environments *)

Import Visualizer.

(** C3 at [occupied] and at [fresh]: a regular file named [diagrams]
    gives exit status 1 and the error line; an empty directory with a
    working engine gives exit status 0. *)
Lemma main_creates_the_directory_and_reports_the_exit_status_witness :
  main occupied
  = (1, record (Print "Error creating diagrams: [Errno 17] File exists: 'diagrams'")
          (record (Makedirs "diagrams") occupied))
  /\ fst (main fresh) = 0.
Proof.
  split.
  - destruct (main_creates_the_directory_and_reports_the_exit_status occupied)
      as (_ & _ & _ & _ & Hfile).
    apply (Hfile (Blob EmptyString)). reflexivity.
  - pose (w1 := snd (makedirs "diagrams" true fresh)).
    pose (w2 := snd (chdir "diagrams" w1)).
    pose (w3 := snd (create_image_classifier_diagram w2)).
    pose (w4 := snd (create_text_analyzer_diagram w3)).
    pose (w5 := snd (create_data_predictor_diagram w4)).
    pose (w6 := snd (create_templates_overview w5)).
    assert (H1 : makedirs "diagrams" true fresh = (Ok tt, w1))
      by (vm_compute; reflexivity).
    assert (H2 : chdir "diagrams" w1 = (Ok tt, w2)) by (vm_compute; reflexivity).
    assert (H3 : create_image_classifier_diagram w2 = (Ok tt, w3))
      by (vm_compute; reflexivity).
    assert (H4 : create_text_analyzer_diagram w3 = (Ok tt, w4))
      by (vm_compute; reflexivity).
    assert (H5 : create_data_predictor_diagram w4 = (Ok tt, w5))
      by (vm_compute; reflexivity).
    assert (H6 : create_templates_overview w5 = (Ok tt, w6))
      by (vm_compute; reflexivity).
    destruct (main_creates_the_directory_and_reports_the_exit_status fresh)
      as (_ & Hok & _).
    destruct (Hok w1 w2 w3 w4 w5 w6 H1 H2 H3 H4 H5 H6) as (Hmain & _).
    rewrite Hmain. reflexivity.
Defined.

(** C4 at [fresh]: the first run returns 0, and so does the second. *)
Lemma rerunning_is_idempotent_witness :
  main fresh = (0, snd (main fresh))
  /\ exists evs : list event,
      log (snd (main fresh)) = log fresh ++ evs
      /\ main (spawn (cwd fresh) (snd (main fresh)))
         = (0, mkWorld (fs (snd (main fresh))) (cwd fresh ++ ["diagrams"])
                 (backend fresh) evs).
Proof.
  assert (Hfirst : main fresh = (0, snd (main fresh))) by (vm_compute; reflexivity).
  split; [exact Hfirst|].
  destruct (rerunning_is_idempotent fresh (snd (main fresh)) Hfirst)
    as (evs & Hlog & Hsecond & _).
  exists evs. split; assumption.
Defined.

(** C8 at [failing_third]: the engine fails on the third graph; the exit
    status is 1 and the second picture is still there. *)
Lemma a_failing_routine_keeps_the_earlier_pictures_witness :
  exists (w2 wk wk' : world),
    setup failing_third = (Ok tt, w2)
    /\ run_all (take 2 routines) w2 = (Ok tt, wk)
    /\ routines !! 2%nat = Some data_predictor
    /\ create data_predictor wk = (Raise ExecutableNotFound, wk')
    /\ main failing_third = (1, record (error_line ExecutableNotFound) wk')
    /\ fs (snd (main failing_third)) !! ["diagrams"; "burn-text-analyzer-diagram.png"]
       = Some (File (Image "PNG")).
Proof.
  pose (w2 := snd (setup failing_third)).
  pose (wk := snd (run_all (take 2 routines) w2)).
  pose (wk' := snd (create data_predictor wk)).
  assert (H1 : setup failing_third = (Ok tt, w2)) by (vm_compute; reflexivity).
  assert (H2 : run_all (take 2 routines) w2 = (Ok tt, wk)) by (vm_compute; reflexivity).
  assert (H3 : routines !! 2%nat = Some data_predictor) by reflexivity.
  assert (H4 : create data_predictor wk = (Raise ExecutableNotFound, wk'))
    by (vm_compute; reflexivity).
  destruct (a_failing_routine_keeps_the_earlier_pictures
              failing_third w2 wk wk' 2 data_predictor ExecutableNotFound
              H1 H2 H3 H4) as (Hmain & _ & Hfiles).
  exists w2, wk, wk'.
  split; [exact H1|]. split; [exact H2|]. split; [exact H3|].
  split; [exact H4|]. split; [exact Hmain|].
  destruct (Hfiles 1%nat text_analyzer eq_refl ltac:(lia))
    as (wj & png & _ & Hb & _ & Hfs).
  vm_compute in Hb. injection Hb as <-. exact Hfs.
Defined.

(** C4 is about two runs of the program. Two calls of [main] in one process
    are another matter: the first call leaves the process inside
    [diagrams], so the second one draws into [diagrams/diagrams]. *)
Lemma a_second_call_in_the_same_process_nests :
  fst (main (snd (main fresh))) = 0
  /\ fs (snd (main (snd (main fresh))))
       !! ["diagrams"; "diagrams"; "burn-templates-overview.png"]
     = Some (File (Image "PNG")).
Proof. split; vm_compute; reflexivity. Qed.

(** ** Further properties of the two scripts *)

Import Draws Health.

Section GeneratorDraws.
Import Generator Draws.
Context {G : Type} {RS : RandomSource G}.

Lemma rand_samples (n : nat) (g : G) :
  rand n g = (samples n g, after_samples n g).
Proof.
  revert g. induction n as [|n IH]; intros g; [reflexivity|].
  cbn [rand samples after_samples].
  destruct (random_sample g) as [x g1]. cbn [snd]. rewrite IH. reflexivity.
Qed.

Lemma choice_words {A : Type} (a : list A) (n : nat) (g : G) (xs : list A) (g' : G) :
  choice a n g = Some (xs, g') ->
  g' = after_words n g
  /\ Forall2 (fun w x => a !! N.to_nat (w mod N.of_nat (length a)) = Some x)
             (words n g) xs.
Proof.
  revert g xs. induction n as [|n IH]; intros g xs.
  - intros [= <- <-]. split; [reflexivity | constructor].
  - cbn [choice words after_words]. unfold randint.
    destruct (random_word g) as [w g1]. cbn [snd].
    destruct (a !! N.to_nat (w mod N.of_nat (length a))) as [x|] eqn:Hx; [|discriminate].
    destruct (choice a n g1) as [[ys g2]|] eqn:Hc; [|discriminate].
    intros [= <- <-]. destruct (IH g1 ys Hc) as [-> Hall].
    split; [reflexivity | constructor; assumption].
Qed.


Lemma Forall2_decode {A B : Type} (f : A -> option B) (h : A -> B)
      (ws : list A) (xs : list B) :
  (forall w, In w ws -> f w = Some (h w)) ->
  Forall2 (fun w x => f w = Some x) ws xs -> xs = map h ws.
Proof.
  intros Hf Hall. induction Hall as [|w x ws xs Hwx _ IH]; [reflexivity|].
  cbn [map]. rewrite Hf in Hwx by now left. injection Hwx as <-.
  f_equal. apply IH. intros w' Hw'. apply Hf. now right.
Qed.

Lemma letter_lookup (w : N) :
  ["A"; "B"; "C"; "D"] !! N.to_nat (w mod N.of_nat 4) = Some (letter w).
Proof.
  unfold letter. change (N.of_nat 4) with 4%N.
  pose proof (N.mod_lt w 4 ltac:(lia)) as Hlt.
  destruct (w mod 4)%N as [|[[|[]|]|[|[]|]|]]; try reflexivity; lia.
Qed.

Lemma flag_lookup (w : N) :
  [true; false] !! N.to_nat (w mod N.of_nat 2) = Some (flag w).
Proof.
  unfold flag. change (N.of_nat 2) with 2%N.
  pose proof (N.mod_lt w 2 ltac:(lia)) as Hlt.
  destruct (w mod 2)%N as [|[]]; try reflexivity; lia.
Qed.

(** The dict and the table in terms of the draws. *)
Lemma data_draws (g : G) :
  exists ts,
    date_range "2023-01-01" 100 = Some ts /\ length ts = 100%nat
    /\ data g
       = Some ([("id", IntCol (range 1 101));
                ("name", StrCol (map (fun i => "Item " +:+ str i) (range 1 101)));
                ("value", FloatCol (array_mul_int (samples 100 g) 1000));
                ("category",
                 StrCol (map letter (words 100 (after_samples 100 g))));
                ("date", DateCol ts);
                ("is_active",
                 BoolCol (map flag (words 100 (after_words 100 (after_samples 100 g)))))],
               after_words 100 (after_words 100 (after_samples 100 g))).
Proof.
  destruct date_range_2023 as (ts & Hts & Hlen). exists ts.
  split; [exact Hts|]. split; [exact Hlen|].
  unfold data. rewrite rand_samples, Hts.
  destruct (choice_total ["A"; "B"; "C"; "D"] 100 (after_samples 100 g)
              ltac:(discriminate)) as (cats & g2 & Hc & _ & _).
  rewrite Hc. apply choice_words in Hc as [-> Hcats].
  apply (Forall2_decode _ letter) in Hcats; [|intros w _; apply letter_lookup].
  destruct (choice_total [true; false] 100
              (after_words 100 (after_samples 100 g)) ltac:(discriminate))
    as (acts & g3 & Ha & _ & _).
  rewrite Ha. apply choice_words in Ha as [-> Hacts].
  apply (Forall2_decode _ flag) in Hacts; [|intros w _; apply flag_lookup].
  subst cats acts. reflexivity.
Qed.

Lemma words_length (n : nat) (g : G) : length (words n g) = n.
Proof.
  revert g. induction n as [|n IH]; intros g; [reflexivity|].
  cbn [words]. destruct (random_word g) as [w g1]. cbn. now rewrite IH.
Qed.

Lemma samples_length (n : nat) (g : G) : length (samples n g) = n.
Proof.
  revert g. induction n as [|n IH]; intros g; [reflexivity|].
  cbn [samples]. destruct (random_sample g) as [w g1]. cbn. now rewrite IH.
Qed.

Lemma df_draws (g : G) :
  exists ts cols final,
    date_range "2023-01-01" 100 = Some ts
    /\ data g = Some (cols, final)
    /\ df g = Some (mkDataFrame cols 100)
    /\ final = after_words 100 (after_words 100 (after_samples 100 g))
    /\ cols = [("id", IntCol (range 1 101));
               ("name", StrCol (map (fun i => "Item " +:+ str i) (range 1 101)));
               ("value", FloatCol (array_mul_int (samples 100 g) 1000));
               ("category",
                StrCol (map letter (words 100 (after_samples 100 g))));
               ("date", DateCol ts);
               ("is_active",
                BoolCol (map flag (words 100 (after_words 100 (after_samples 100 g)))))].
Proof.
  destruct (data_draws g) as (ts & Hts & Hlen & Hdata).
  exists ts. eexists _, _. split; [exact Hts|]. split; [exact Hdata|].
  split; [|split; reflexivity].
  unfold df. rewrite Hdata. unfold DataFrame_of_dict.
  cbn [forallb snd column_length]. unfold array_mul_int.
  rewrite !length_map, range_length, samples_length, !words_length, Hlen.
  reflexivity.
Qed.

(** X1. For every random source the category column has 100 entries and
    each of them is one of the letters A, B, C, D. *)
Theorem category_column_is_over_A_B_C_D (g : G) :
  exists t cats,
    df g = Some t
    /\ get_column "category" t = Some (StrCol cats)
    /\ length cats = 100%nat
    /\ Forall (fun c => c = "A" \/ c = "B" \/ c = "C" \/ c = "D") cats.
Proof.
  destruct (df_draws g) as (ts & cols & final & _ & _ & Hdf & _ & ->).
  eexists _, _. split; [exact Hdf|]. split; [reflexivity|].
  split; [rewrite length_map; apply words_length|].
  apply List.Forall_forall. intros c Hc.
  apply List.in_map_iff in Hc as (w & <- & _). unfold letter.
  destruct (w mod 4)%N as [|[[]|[]|]]; auto.
Qed.

(** X2. The dict is filled in the order of its entries: the value column
    is computed from the first 100 doubles of the source, the category
    column from the 100 words drawn after them, the is_active column from
    the next 100 words, and the run leaves the source advanced by exactly
    these 300 draws. *)
Theorem the_columns_consume_the_draws_in_order (g : G) :
  exists cols,
    data g = Some (cols, after_words 100 (after_words 100 (after_samples 100 g)))
    /\ assoc "value" cols
       = Some (FloatCol (map (fun r => Float64.mul r (Float64.of_Z 1000))
                             (samples 100 g)))
    /\ assoc "category" cols
       = Some (StrCol (map letter (words 100 (after_samples 100 g))))
    /\ assoc "is_active" cols
       = Some (BoolCol (map flag
                 (words 100 (after_words 100 (after_samples 100 g))))).
Proof.
  destruct (data_draws g) as (ts & _ & _ & Hdata).
  eexists. split; [exact Hdata|]. repeat split.
Qed.

(** X3. No two rows have the same name. *)
Theorem name_column_has_no_duplicates (g : G) :
  exists t names,
    df g = Some t
    /\ get_column "name" t = Some (StrCol names)
    /\ NoDup names.
Proof.
  destruct (df_draws g) as (ts & cols & final & _ & _ & Hdf & _ & ->).
  eexists _, _. split; [exact Hdf|]. split; [reflexivity|].
  assert (Hinj : Inj (=) (=) (fun i : Z => "Item " +:+ str i)).
  { intros i j Heq. apply (inj (String.app "Item ")) in Heq.
    apply (inj pretty) in Heq. exact Heq. }
  apply (NoDup_fmap_2 _), NoDup_seqZ.
Qed.

End GeneratorDraws.

Section FloatShape.

Lemma digits2_ge (q : positive) (k : Z) :
  0 <= k -> 2 ^ k <= Zpos q -> k + 1 <= Zpos (digits2_pos q).
Proof.
  intros Hk Hq. destruct (digits2_bounds q) as [_ Hhi].
  assert (2 ^ k < 2 ^ Zpos (digits2_pos q)) as Hlt by lia.
  apply Z.pow_lt_mono_r_iff in Hlt; lia.
Qed.

Lemma valid_finite_intro (m : positive) (e : Z) :
  Z.max (Zpos (digits2_pos m) + e - 53) (-1074) = e -> e <= 971 ->
  Float64.valid (S754_finite false m e) = true.
Proof.
  intros Hc He. unfold Float64.valid, valid_binary, bounded, canonical_mantissa.
  rewrite fexp_eq. apply andb_true_intro. split.
  - apply Z.eqb_eq. exact Hc.
  - apply Z.leb_le. change (Float64.emax - Float64.prec) with 971. exact He.
Qed.

(** The product of a positive double below 1 and 1000.0 is a positive,
    canonical double: nothing underflows to zero. *)
Lemma mul_1000_shape (m : positive) (e : Z) :
  Float64.valid (S754_finite false m e) = true ->
  Float64.ltb (S754_finite false m e) Float64.one = true ->
  exists (m' : positive) (e' : Z),
    Float64.mul (S754_finite false m e) (Float64.of_Z 1000)
    = S754_finite false m' e'
    /\ Float64.valid (S754_finite false m' e') = true.
Proof.
  intros Hv Hlt.
  pose proof (below_one m e Hv Hlt) as He.
  apply valid_finite in Hv as [Hc _]. clear Hlt.
  rewrite of_Z_1000. unfold Float64.mul, SFmul. cbn [xorb].
  set (M := 8796093022208000%positive).
  assert (HM : Zpos M = 8796093022208000) by reflexivity.
  set (d := Zpos (digits2_pos m)) in *.
  set (dP := Zpos (digits2_pos (m * M))).
  destruct (digits2_bounds m) as [Hmlo Hmhi]. fold d in Hmlo, Hmhi.
  destruct (digits2_bounds (m * M)) as [HPlo HPhi]. fold dP in HPlo, HPhi.
  assert (Hd : 1 <= d <= 53) by (unfold d in *; lia).
  assert (HdP : d + 52 <= dP).
  { assert (2 ^ (d + 51) < 2 ^ dP) as Hp.
    { eapply Z.le_lt_trans; [|exact HPhi].
      rewrite Pos2Z.inj_mul, HM.
      replace (d + 51) with ((d - 1) + 52) by lia.
      rewrite Z.pow_add_r by lia.
      apply Z.mul_le_mono_nonneg; try lia.
      all: try (apply Z.pow_nonneg; lia).
      all: change (2 ^ 52) with 4503599627370496; lia. }
    apply Z.pow_lt_mono_r_iff in Hp; unfold dP; lia. }
  assert (HdP' : dP <= d + 53).
  { assert (2 ^ (dP - 1) < 2 ^ (d + 53)) as Hp.
    { eapply Z.le_lt_trans; [exact HPlo|].
      rewrite Pos2Z.inj_mul, HM.
      rewrite Z.pow_add_r by lia.
      apply Z.mul_lt_mono_nonneg; try lia.
      all: try (apply Z.pow_nonneg; lia).
      all: change (2 ^ 53) with 9007199254740992; lia. }
    apply Z.pow_lt_mono_r_iff in Hp; lia. }
  pose proof (round_aux_pos (m * M) (e + -43)) as Hround.
  fold dP in Hround. rewrite fexp_eq in Hround. cbv zeta in Hround.
  set (n := Z.max (dP + (e + -43) - 53) (-1074) - (e + -43)) in *.
  destruct Hround as (m2 & Hm2 & _ & Hround); [unfold n; lia..|].
  change Float64.prec with 53. change Float64.emax with 1024. rewrite Hround.
  assert (Hn : 0 < n <= dP - 1) by (unfold n; lia).
  assert (He' : -1074 <= e + -43 + n <= -43) by (unfold n; lia).
  assert (Hcases : n = dP - 53 \/ e + -43 + n = -1074) by (unfold n; lia).
  clearbody n.
  (* the truncated mantissa *)
  set (m1 := Zpos (m * M) / 2 ^ n) in *.
  assert (Hm1lo : 1 <= m1).
  { apply Z.div_le_lower_bound; [apply Z.pow_pos_nonneg; lia|].
    rewrite Z.mul_1_r. eapply Z.le_trans; [|exact HPlo].
    apply Z.pow_le_mono_r; lia. }
  assert (Hm1big : n = dP - 53 -> 2 ^ 52 <= m1).
  { intros ->. apply Z.div_le_lower_bound; [apply Z.pow_pos_nonneg; lia|].
    rewrite <- Z.pow_add_r by lia.
    replace (dP - 53 + 52) with (dP - 1) by lia. exact HPlo. }
  destruct (Z.eqb_spec m2 0) as [->|_]; [lia|].
  destruct (Z.ltb_spec m2 (2 ^ 53)) as [Hlt53|Hge53].
  - destruct m2 as [|q|q]; try lia. cbn [Z.to_pos].
    eexists _, _. split; [reflexivity|].
    apply valid_finite_intro; [|lia].
    pose proof (digits2_le q 53 ltac:(lia) Hlt53) as Hq.
    destruct Hcases as [Hn53|Hmin]; [|lia].
    pose proof (digits2_ge q 52 ltac:(lia) ltac:(specialize (Hm1big Hn53); lia)).
    lia.
  - eexists _, _. split; [reflexivity|].
    apply valid_finite_intro; [|lia].
    change (Zpos (digits2_pos (2 ^ 52))) with 53. lia.
Qed.

End FloatShape.

Section GeneratorValues.
Import Generator Draws.
Context {G : Type} {RS : RandomSource G}.

Lemma samples_elem (n : nat) (g : G) (x : spec_float) :
  In x (samples n g) -> exists g', x = fst (random_sample g').
Proof.
  revert g; induction n as [|n IH]; intros g; cbn [samples]; [intros []|].
  destruct (random_sample g) as [y g1] eqn:Hy.
  intros [<-|Hin]; [exists g; now rewrite Hy | eauto].
Qed.

Lemma Forall2_map_intro {A B : Type} (P : A -> B -> Prop) (f : A -> B) (l : list A) :
  (forall a, In a l -> P a (f a)) -> Forall2 P l (map f l).
Proof.
  induction l as [|a l IH]; intros Hl; cbn [map]; constructor.
  - apply Hl. now left.
  - apply IH. intros b Hb. apply Hl. now right.
Qed.

Lemma mul_1000_finite (r : spec_float) :
  Float64.in_unit_interval r = true ->
  let v := Float64.mul r (Float64.of_Z 1000) in
  Float64.valid v = true /\ is_finite v = true /\ is_zero v = is_zero r.
Proof.
  unfold Float64.in_unit_interval. intros Hr.
  apply andb_prop in Hr as [Hr Hlt]. apply andb_prop in Hr as [Hv Hle].
  destruct r as [s|s| |s m e].
  - destruct s; repeat split.
  - destruct s; discriminate.
  - discriminate.
  - destruct s; [discriminate|].
    destruct (mul_1000_shape m e Hv Hlt) as (m' & e' & Heq & Hvalid).
    cbv zeta. rewrite Heq. repeat split. exact Hvalid.
Qed.

(** X4. If every draw is a double in [[0, 1)], every value entry is a
    canonical finite double (neither NaN nor infinite), and it is a zero
    only where the draw is a zero: the product with 1000 never underflows
    to zero. *)
Theorem value_entries_are_finite_doubles (g : G) :
  (forall g' : G, Float64.in_unit_interval (fst (random_sample g')) = true) ->
  exists t vs,
    df g = Some t
    /\ get_column "value" t = Some (FloatCol vs)
    /\ Forall2 (fun r v => Float64.valid v = true /\ is_finite v = true
                           /\ is_zero v = is_zero r)
               (samples 100 g) vs.
Proof.
  intros Hdraw.
  destruct (df_draws g) as (ts & cols & final & _ & _ & Hdf & _ & ->).
  eexists _, _. split; [exact Hdf|]. split; [reflexivity|].
  unfold array_mul_int. apply Forall2_map_intro. intros r Hr.
  apply samples_elem in Hr as (g' & ->). apply mul_1000_finite, Hdraw.
Qed.


End GeneratorValues.

(** X4 at [Sources.flip]. *)
Lemma value_entries_are_finite_doubles_witness :
  (forall b : bool,
      Float64.in_unit_interval
        (fst (Generator.random_sample (RandomSource := Sources.flip) b)) = true)
  /\ exists t vs,
      Generator.df (RS := Sources.flip) true = Some t
      /\ Generator.get_column "value" t = Some (Generator.FloatCol vs)
      /\ Forall2 (fun r v => Float64.valid v = true /\ is_finite v = true
                             /\ is_zero v = is_zero r)
                 (Draws.samples (RS := Sources.flip) 100 true) vs.
Proof.
  assert (Hdraw : forall b : bool,
             Float64.in_unit_interval
               (fst (Generator.random_sample (RandomSource := Sources.flip) b)) = true)
    by (intros []; vm_compute; reflexivity).
  split; [exact Hdraw|].
  exact (value_entries_are_finite_doubles (RS := Sources.flip) true Hdraw).
Defined.

Section VisualizerRunFacts.
Import Health.
Local Open Scope script_scope.

Lemma is_dir_true (m : gmap path inode) (p : path) :
  is_dir m p = true <-> m !! p = Some Dir.
Proof.
  unfold is_dir. destruct (m !! p) as [[|c]|]; split; congruence.
Qed.





(** Whatever its outcome, [create d] keeps the directory, the engine and
    every file but its own two. *)
Lemma create_frame (d : diagram) (w w' : world) (res : result unit) :
  create d w = (res, w') ->
  cwd w' = cwd w /\ backend w' = backend w
  /\ forall p : path,
      p <> cwd w ++ [filename d] -> p <> cwd w ++ [output d] ->
      fs w' !! p = fs w !! p.
Proof.
  destruct res as [[]|e]; intros Hc.
  - apply create_ok_inv in Hc as (_ & png & _ & ->). cbn [fs cwd backend].
    repeat split. intros p H1 H2. apply drawn_other; assumption.
  - apply create_raise_inv in Hc as (Hc & Hb & _ & Hf).
    repeat split; auto.
Qed.

Lemma run_all_frame (ds : list diagram) (w w' : world) (res : result unit) :
  run_all ds w = (res, w') ->
  cwd w' = cwd w /\ backend w' = backend w
  /\ forall p : path,
      (forall n, In n (names ds) -> p <> cwd w ++ [n]) ->
      fs w' !! p = fs w !! p.
Proof.
  revert w. induction ds as [|d ds IH]; intros w Hrun.
  - injection Hrun as <- <-. auto.
  - cbn [run_all] in Hrun. unfold bind in Hrun.
    destruct (create d w) as [[[]|e] w1] eqn:Hd.
    + apply create_frame in Hd as (Hc & Hb & Hf).
      apply IH in Hrun as (Hc' & Hb' & Hf').
      rewrite Hc in *. rewrite Hb in *.
      repeat split; auto. intros p Hp.
      rewrite Hf' by (intros n Hn; apply Hp; cbn; auto).
      apply Hf; apply Hp; cbn; auto.
    + injection Hrun as <- <-.
      apply create_frame in Hd as (Hc & Hb & Hf).
      repeat split; auto. intros p Hp. apply Hf; apply Hp; cbn; auto.
Qed.

Lemma setup_frame (w w' : world) (res : result unit) :
  setup w = (res, w') ->
  backend w' = backend w
  /\ (forall p : path, p <> cwd w ++ ["diagrams"] -> fs w' !! p = fs w !! p)
  /\ (res = Ok tt -> cwd w' = cwd w ++ ["diagrams"]
                     /\ is_dir (fs w') (cwd w') = true).
Proof.
  destruct res as [[]|e]; intros Hs.
  - apply setup_ok_inv in Hs as (Hc & Hb & _ & Hd & Hf).
    repeat split; auto. apply is_dir_true. exact Hd.
  - unfold setup, bind, makedirs, chdir, record, set_fs, set_cwd in Hs.
    cbn [fs cwd backend log] in Hs.
    destruct (fs w !! (cwd w ++ ["diagrams"])) as [[|c]|] eqn:Hd.
    + cbn [fs cwd backend log] in Hs. rewrite Hd in Hs. discriminate.
    + injection Hs as <- <-.
      split; [reflexivity|]. split; [intros; reflexivity | discriminate].
    + destruct (fs w !! cwd w) as [[|c]|] eqn:Hcwd.
      * cbn [fs cwd backend log] in Hs. rewrite lookup_insert_eq in Hs. discriminate.
      * injection Hs as <- <-.
      split; [reflexivity|]. split; [intros; reflexivity | discriminate].
      * injection Hs as <- <-.
      split; [reflexivity|]. split; [intros; reflexivity | discriminate].
Qed.





End VisualizerRunFacts.

Section VisualizerMore.
Import Health.
Local Open Scope script_scope.




Lemma main_frame (w : world) (p : path) :
  p <> cwd w ++ ["diagrams"] ->
  (forall n, In n (names routines) -> p <> (cwd w ++ ["diagrams"]) ++ [n]) ->
  fs (snd (main w)) !! p = fs w !! p
  /\ backend (snd (main w)) = backend w.
Proof.
  intros Hdir Hfiles.
  unfold main. rewrite main_try_eq. unfold bind.
  destruct (setup w) as [[[]|e] w2] eqn:Hsetup.
  - destruct (setup_frame w w2 _ Hsetup) as (Hb & Hf & Hc).
    destruct (Hc eq_refl) as [Hcwd _].
    destruct (run_all routines w2) as [[[]|e] w6] eqn:Hrun;
      apply run_all_frame in Hrun as (_ & Hb6 & Hf6);
      cbn [snd print record fs backend];
      (split; [rewrite Hf6 by (rewrite Hcwd; exact Hfiles); apply Hf, Hdir
              | congruence]).
  - destruct (setup_frame w w2 _ Hsetup) as (Hb & Hf & _).
    cbn [snd record fs backend]. split; [apply Hf, Hdir | exact Hb].
Qed.

(** X7. Whatever the outcome, [main] changes no path other than
    [diagrams] and the eight file names inside it, and leaves the engine as
    it is. *)
Theorem main_writes_only_below_diagrams (w : world) (p : path) :
  ~ In p (touched (cwd w)) ->
  fs (snd (main w)) !! p = fs w !! p
  /\ backend (snd (main w)) = backend w.
Proof.
  intros Hp. unfold touched in Hp. cbn [In] in Hp.
  apply main_frame.
  - intros ->. tauto.
  - intros n Hn ->. apply Hp. right.
    apply in_map_iff. exists n. split; [reflexivity | exact Hn].
Qed.

(** X8. After a run that returned 0 the process is inside [diagrams],
    which is a directory; each of the four pictures holds what the engine
    drew; and no description file is left, not even a file that had the
    name of a description before the run. *)
Theorem a_successful_run_leaves_no_description_file (w w1 : world) :
  main w = (0, w1) ->
  cwd w1 = cwd w ++ ["diagrams"]
  /\ fs w1 !! (cwd w ++ ["diagrams"]) = Some Dir
  /\ forall d, In d routines ->
       fs w1 !! (cwd w ++ ["diagrams"; filename d]) = None
       /\ exists png, backend w (graph d) = Some png
                      /\ fs w1 !! (cwd w ++ ["diagrams"; output d])
                         = Some (File (Image png)).
Proof.
  intros Hmain.
  apply main_ok_inv in Hmain as (w2 & w6 & Hsetup & Hrun & ->).
  apply setup_ok_inv in Hsetup as (Hc2 & Hb2 & _ & Hdir & _).
  apply run_all_ok_inv in Hrun as (Hc6 & Hb6 & _ & _ & Hall & Hframe);
    [|apply routines_names_distinct].
  rewrite Hc2 in *. rewrite Hb2 in *. cbn [record fs cwd].
  split; [exact Hc6|]. split.
  - rewrite Hframe; [exact Hdir|]. intros d _. split; apply path_snoc_ne.
  - intros d Hd. destruct (Hall d Hd) as (png & Hb & Hs & Ho).
    rewrite <- app_assoc in Hs, Ho. split; [exact Hs|]. eauto.
Qed.










Lemma outputs_are_not_diagrams (d : diagram) :
  In d routines -> output d <> "diagrams".
Proof. intros [<-|[<-|[<-|[<-|[]]]]]; discriminate. Qed.

(** X11. A second call of [main] in the same process starts inside
    [diagrams]: it leaves the four pictures of the first call untouched
    and, when it returns 0, has drawn them again in [diagrams/diagrams]. *)
Theorem a_second_call_in_the_same_process_draws_one_level_down (w w1 : world) :
  main w = (0, w1) ->
  cwd w1 = cwd w ++ ["diagrams"]
  /\ (forall d, In d routines ->
        fs (snd (main w1)) !! (cwd w ++ ["diagrams"; output d])
        = fs w1 !! (cwd w ++ ["diagrams"; output d]))
  /\ (fst (main w1) = 0 ->
      forall d, In d routines ->
        exists png,
          fs (snd (main w1)) !! (cwd w ++ ["diagrams"; "diagrams"; output d])
          = Some (File (Image png))).
Proof.
  intros Hmain.
  assert (Hcwd : cwd w1 = cwd w ++ ["diagrams"]).
  { apply main_ok_inv in Hmain as (w2 & w6 & Hsetup & Hrun & ->).
    apply setup_ok_inv in Hsetup as (Hc2 & _).
    apply run_all_frame in Hrun as (Hc6 & _). cbn [record cwd]. congruence. }
  split; [exact Hcwd|]. split.
  - intros d Hd.
    replace (cwd w ++ ["diagrams"; output d]) with (cwd w1 ++ [output d])
      by (rewrite Hcwd, <- app_assoc; reflexivity).
    apply main_frame.
    + apply snoc_ne, outputs_are_not_diagrams, Hd.
    + intros n _ Heq. apply (f_equal (@length string)) in Heq.
      rewrite !length_app in Heq. cbn in Heq. lia.
  - intros Hsecond d Hd.
    assert (Hmain2 : main w1 = (0, snd (main w1))).
    { destruct (main w1) as [c w3]. cbn [fst snd] in *. congruence. }
    apply main_ok_inv in Hmain2 as (w2 & w6 & Hsetup & Hrun & ->).
    apply setup_ok_inv in Hsetup as (Hc2 & Hb2 & _).
    apply run_all_ok_inv in Hrun as (_ & _ & _ & _ & Hall & _);
      [|apply routines_names_distinct].
    destruct (Hall d Hd) as (png & _ & _ & Hout).
    exists png. cbn [record fs]. rewrite <- Hout, Hc2, Hcwd, <- !app_assoc.
    reflexivity.
Qed.

End VisualizerMore.

Section Graphs.
Import Health.

Lemma index_of_lookup (n : string) (l : list string) (i : nat) :
  index_of n l = Some i -> l !! i = Some n.
Proof.
  revert i. induction l as [|x l IH]; intros i; cbn [index_of]; [discriminate|].
  destruct (String.eqb_spec x n) as [->|_].
  - intros [= <-]. reflexivity.
  - destruct (index_of n l) as [j|]; [|discriminate].
    intros [= <-]. cbn. apply IH. reflexivity.
Qed.

Lemma declared_before_spec (l : list string) (e : string * string * option string) :
  declared_before l e = true ->
  exists i j : nat,
    l !! i = Some (fst (fst e)) /\ l !! j = Some (snd (fst e)) /\ (i < j)%nat.
Proof.
  unfold declared_before.
  destruct (index_of (fst (fst e)) l) as [i|] eqn:Hi; [|discriminate].
  destruct (index_of (snd (fst e)) l) as [j|] eqn:Hj; [|discriminate].
  intros Hlt. exists i, j. repeat split; try (apply index_of_lookup; assumption).
  apply Nat.ltb_lt. exact Hlt.
Qed.

(** X12. In each of the four graphs no node is declared twice, no edge
    is drawn twice, and every edge joins two declared nodes, from one
    declared earlier to one declared later; so no graph has a dangling
    edge, a loop or a cycle. *)
Theorem every_graph_is_well_formed_and_acyclic :
  Forall (fun g =>
            NoDup (all_nodes g)
            /\ NoDup (map fst (all_edges g))
            /\ Forall (fun e =>
                         exists i j : nat,
                           all_nodes g !! i = Some (fst (fst e))
                           /\ all_nodes g !! j = Some (snd (fst e))
                           /\ (i < j)%nat)
                      (all_edges g))
         (map graph routines).
Proof.
  repeat (apply List.Forall_cons;
          [split; [compute_done|]; split; [compute_done|];
           apply List.Forall_forall; intros e He; apply declared_before_spec;
           revert e He; apply forallb_forall; vm_compute; reflexivity |]).
  apply List.Forall_nil.
Qed.

(** X13. The overview graph is a tree of 13 nodes and 12 edges rooted at
    [burn]: [burn] has no parent and the three template nodes as children,
    every other node has exactly one parent, and each template's children
    are exactly the three nodes of its grouping, which are leaves; the
    groupings hold no edges. *)
Theorem the_overview_is_a_two_level_tree :
  length (all_nodes templates_overview_graph) = 13%nat
  /\ length (all_edges templates_overview_graph) = 12%nat
  /\ parents templates_overview_graph "burn" = []
  /\ children templates_overview_graph "burn" = ["image"; "text"; "data"]
  /\ Forall (fun n => n = "burn"
                      \/ length (parents templates_overview_graph n) = 1%nat)
            (all_nodes templates_overview_graph)
  /\ Forall (fun tc =>
               exists sb,
                 grouping templates_overview_graph (snd tc) = Some sb
                 /\ edges sb = []
                 /\ length (nodes sb) = 3%nat
                 /\ children templates_overview_graph (fst tc) = nodes sb
                 /\ Forall (fun leaf => children templates_overview_graph leaf = [])
                           (nodes sb))
            [("image", "cluster_image"); ("text", "cluster_text");
             ("data", "cluster_data")].
Proof.
  split; [vm_compute; reflexivity|]. split; [vm_compute; reflexivity|].
  split; [vm_compute; reflexivity|]. split; [vm_compute; reflexivity|].
  split; [compute_done|].
  repeat (apply List.Forall_cons;
          [eexists; split; [vm_compute; reflexivity|];
           split; [reflexivity|]; split; [reflexivity|];
           split; [vm_compute; reflexivity | compute_done] |]).
  apply List.Forall_nil.
Qed.

End Graphs.

(** X7 at [lived_in]: the note beside [diagrams] is not touched. *)
Lemma main_writes_only_below_diagrams_witness :
  ~ In ["notes.txt"] (Health.touched (cwd lived_in))
  /\ fs (snd (main lived_in)) !! ["notes.txt"] = fs lived_in !! ["notes.txt"].
Proof.
  assert (H : ~ In ["notes.txt"] (Health.touched (cwd lived_in))).
  { vm_compute. intros H. repeat (destruct H as [H|H]; [discriminate H|]). exact H. }
  split; [exact H|].
  exact (proj1 (main_writes_only_below_diagrams lived_in ["notes.txt"] H)).
Defined.

(** X8 at [lived_in]: the file that had the name of the text-analyzer
    description is gone after the run. *)
Lemma a_successful_run_leaves_no_description_file_witness :
  main lived_in = (0, snd (main lived_in))
  /\ fs (snd (main lived_in)) !! ["diagrams"; "burn-text-analyzer-diagram"] = None.
Proof.
  assert (H : main lived_in = (0, snd (main lived_in))) by (vm_compute; reflexivity).
  split; [exact H|].
  destruct (a_successful_run_leaves_no_description_file lived_in _ H)
    as (_ & _ & Hfiles).
  exact (proj1 (Hfiles text_analyzer (or_intror (or_introl eq_refl)))).
Defined.


(** X11 at [fresh]. *)
Lemma a_second_call_in_the_same_process_draws_one_level_down_witness :
  main fresh = (0, snd (main fresh))
  /\ cwd (snd (main fresh)) = ["diagrams"].
Proof.
  assert (H : main fresh = (0, snd (main fresh))) by (vm_compute; reflexivity).
  split; [exact H|].
  exact (proj1 (a_second_call_in_the_same_process_draws_one_level_down
                  fresh _ H)).
Defined.
